(** * Shift scheduler: schedule generation and iCalendar export

    A shallow embedding of the two versions of the scheduler.

    - [PolicyA] is the three-role version (Hospital / ODC / OFF rotation,
      lane weeks with optional double OFF), file [src/unnamed/part_000].
    - [PolicyB] is the single-role version ([personForWeek], lane weeks
      that may hide the ODC block), file [src/app.js].

    The helper functions at the top of the two files are textually the same
    and are embedded once, in this first part.

    ** What of the JavaScript runtime is modelled

    - A JS number is an integer or [NaN] ([number]); integers are exact
      (a double is, up to 2^53).  The duration in [years] is a fraction:
      it is held as the rational that the double stands for, and the
      product [years * 365.25] is the double product, the exact product
      rounded to the nearest double, ties to even ([double], [times]).
      A result beyond the largest double, which JS makes [Infinity], a
      [NaN] duration, fractional cadences and [-0] are not represented.
    - A [Date] is its local time value in milliseconds, or [InvalidDate].
      The local zone has a fixed offset: a calendar day is always
      86 400 000 ms long, so [setDate(getDate() + k)] adds [k] such days and
      [setHours(h, m, 0, 0)] counts from the local midnight of the same
      day.  The time-clip range of [Date] (about 270 000 years around 1970)
      is not modelled.
    - [people[i]] is [Some] person or [None] for [undefined].
    - [Array.prototype.sort] is specified to be stable; it is modelled by a
      stable insertion sort.
    - [crypto.randomUUID()] and [new Date()] are read from two oracles
      indexed by the position of the event being exported. *)

From Stdlib Require Import ZArith QArith Qround Qabs List String Ascii Bool Lia.
From Stdlib Require Import Permutation Sorted DecimalString.
From Stdlib Require PrimFloat FloatOps SpecFloat.
Import ListNotations.

Local Open Scope Z_scope.

(* ================================================================== *)
(** * The JavaScript values and built-ins the program uses            *)
(* ================================================================== *)

Module JS.

(** ** Numbers *)

Inductive number : Type :=
| Int (z : Z)
| NaN.

(** [a % b]: the remainder has the sign of the dividend; [x % 0] is [NaN]. *)
Definition rem (a b : number) : number :=
  match a, b with
  | Int x, Int y => if y =? 0 then NaN else Int (Z.rem x y)
  | _, _ => NaN
  end.

(** [a + b] *)
Definition add (a b : number) : number :=
  match a, b with
  | Int x, Int y => Int (x + y)
  | _, _ => NaN
  end.

(** [a === b] on numbers: [NaN] is equal to nothing, itself included. *)
Definition strictEq (a b : number) : bool :=
  match a, b with
  | Int x, Int y => x =? y
  | _, _ => false
  end.

(** [a > 0] *)
Definition positive (a : number) : bool :=
  match a with
  | Int x => 0 <? x
  | NaN => false
  end.

(** [String(n)] *)
Definition toString (n : number) : string :=
  match n with
  | Int z => NilZero.string_of_int (Z.to_int z)
  | NaN => "NaN"
  end.

(** ** Doubles

    A finite double is held as the rational it stands for.  The doubles
    of a binade [2^e <= |x| < 2^(e+1)] are the multiples of [2^(e-52)],
    and below [2^-1022] (the subnormal range) the multiples of [2^-1074].
    An arithmetic operation returns the double nearest to the exact result,
    and of two doubles equally near the one with the even multiple. *)

(** [2^k] for any integer [k]. *)
Definition pow2 (k : Z) : Q :=
  if k <? 0 then 1 # Z.to_pos (2 ^ (- k)) else inject_Z (2 ^ k).

(** The [e] with [2^e <= a < 2^(e+1)], for [a > 0]. *)
Definition binade (a : Q) : Z :=
  let k := Z.log2 (Qnum a) - Z.log2 (Zpos (Qden a)) in
  if Qle_bool (pow2 k) a then k else k - 1.

(** The integer nearest to [s], the even one of two equally near. *)
Definition nearestEven (s : Q) : Z :=
  let f := Qfloor s in
  match (s - inject_Z f ?= 1 # 2)%Q with
  | Lt => f
  | Gt => f + 1
  | Eq => if Z.even f then f else f + 1
  end.

(** The distance between the doubles around [x]. *)
Definition ulp (x : Q) : Q :=
  pow2 (Z.max (binade (Qabs x)) (-1022) - 52).

(** The double nearest to [x]; it is what the numeric literal [x] and
    [Number] of the text [x] denote. *)
Definition double (x : Q) : Q :=
  if Qeq_bool x 0 then 0%Q
  else (inject_Z (nearestEven (x / ulp x)) * ulp x)%Q.

(** [a * b] and [a / b] on doubles. *)
Definition times (a b : Q) : Q := double (a * b).

Definition divide (a b : Q) : Q := double (a / b).

(** ** Arrays and template literals *)

(** [arr[i]]: [undefined] outside the array and at an index that is not a
    non-negative integer. *)
Definition index {A : Type} (arr : list A) (i : number) : option A :=
  match i with
  | Int z => if z <? 0 then None else nth_error arr (Z.to_nat z)
  | NaN => None
  end.

(** [arr.push(x)] *)
Definition push {A : Type} (arr : list A) (x : A) : list A := arr ++ [x].

(** What a template literal writes for a person: the name, or the word
    [undefined].  *)
Definition show (v : option string) : string :=
  match v with
  | Some s => s
  | None => "undefined"
  end.

(** ** Strings *)

(** [s.split(c)] for a one-character separator. The result is never empty. *)
Fixpoint split (c : ascii) (s : string) : list string :=
  match s with
  | EmptyString => [EmptyString]
  | String a s' =>
      if Ascii.eqb a c then EmptyString :: split c s'
      else match split c s' with
           | [] => [String a EmptyString]
           | w :: ws => String a w :: ws
           end
  end.

Definition isDigit (a : ascii) : bool :=
  let k := Z.of_N (N_of_ascii a) in (48 <=? k) && (k <=? 57).

Fixpoint digits (acc : Z) (s : string) : number :=
  match s with
  | EmptyString => Int acc
  | String a s' =>
      if isDigit a then digits (10 * acc + (Z.of_N (N_of_ascii a) - 48)) s'
      else NaN
  end.

(** [Number(s)] on the text of a clock field: a run of decimal digits is
    its value and the empty string is 0.  Text with any other character is
    mapped to [NaN]; the signs, fractions, exponents, radix prefixes and
    surrounding blanks that [Number] also reads are outside the model. *)
Definition Number (s : string) : number := digits 0 s.

(** [String(n).padStart(2, "0")] *)
Definition padStart2 (s : string) : string :=
  match String.length s with
  | O => "00"
  | S O => ("0" ++ s)%string
  | _ => s
  end.

(** ** Dates *)

Inductive Date : Type :=
| Time (t : Z)
| InvalidDate.

Definition msPerMinute : Z := 60000.
Definition msPerHour : Z := 3600000.
Definition msPerDay : Z := 86400000.

(** [d.setDate(d.getDate() + days)] *)
Definition plusDays (d : Date) (days : Z) : Date :=
  match d with
  | Time t => Time (t + days * msPerDay)
  | InvalidDate => InvalidDate
  end.

(** [d.setHours(h, m, 0, 0)]: the same local day, at [h] hours and [m]
    minutes after its midnight; values out of the clock's range roll over
    into the neighbouring days.  A [NaN] argument invalidates the date. *)
Definition setHours (d : Date) (h m : number) : Date :=
  match d, h, m with
  | Time t, Int h, Int m =>
      Time (t / msPerDay * msPerDay + h * msPerHour + m * msPerMinute)
  | _, _, _ => InvalidDate
  end.

(** [a > b] and [a <= b] on dates compare the time values; with an invalid
    date both are false. *)
Definition gt (a b : Date) : bool :=
  match a, b with
  | Time x, Time y => y <? x
  | _, _ => false
  end.

Definition le (a b : Date) : bool :=
  match a, b with
  | Time x, Time y => x <=? y
  | _, _ => false
  end.

(** [a - b] on dates *)
Definition sub (a b : Date) : number :=
  match a, b with
  | Time x, Time y => Int (x - y)
  | _, _ => NaN
  end.

(** The civil date of a day number (days since 1970-01-01), in the
    proleptic Gregorian calendar: year, month (1 to 12), day of month. *)
Definition civil (dayNumber : Z) : Z * Z * Z :=
  let z := dayNumber + 719468 in
  let era := z / 146097 in
  let doe := z - era * 146097 in
  let yoe := (doe - doe / 1460 + doe / 36524 - doe / 146096) / 365 in
  let doy := doe - (365 * yoe + yoe / 4 - yoe / 100) in
  let mp := (5 * doy + 2) / 153 in
  let d := doy - (153 * mp + 2) / 5 + 1 in
  let m := if mp <? 10 then mp + 3 else mp - 9 in
  let y := yoe + era * 400 + (if m <=? 2 then 1 else 0) in
  (y, m, d).

Definition getFullYear (d : Date) : number :=
  match d with
  | Time t => let '(y, _, _) := civil (t / msPerDay) in Int y
  | InvalidDate => NaN
  end.

(** [getMonth] counts from 0. *)
Definition getMonth (d : Date) : number :=
  match d with
  | Time t => let '(_, m, _) := civil (t / msPerDay) in Int (m - 1)
  | InvalidDate => NaN
  end.

Definition getDate (d : Date) : number :=
  match d with
  | Time t => let '(_, _, dd) := civil (t / msPerDay) in Int dd
  | InvalidDate => NaN
  end.

Definition getHours (d : Date) : number :=
  match d with
  | Time t => Int (t mod msPerDay / msPerHour)
  | InvalidDate => NaN
  end.

Definition getMinutes (d : Date) : number :=
  match d with
  | Time t => Int (t mod msPerHour / msPerMinute)
  | InvalidDate => NaN
  end.

(** ** Loops *)

(** [for (let i = lo; i < hi; i++) body]: the body maps the state before
    an iteration to the state after it. *)
Fixpoint iterate {S : Type} (count : nat) (i : Z) (body : Z -> S -> S)
  (s : S) : S :=
  match count with
  | O => s
  | Datatypes.S count' => iterate count' (i + 1) body (body i s)
  end.

Definition forLoop {S : Type} (lo hi : Z) (body : Z -> S -> S) (s : S) : S :=
  iterate (Z.to_nat (hi - lo)) lo body s.

(** The same loop with a body that may [break]. *)
Inductive step (S : Type) : Type :=
| Continue (s : S)
| Break (s : S).
Arguments Continue {S} s.
Arguments Break {S} s.

Fixpoint iterateBrk {S : Type} (count : nat) (i : Z)
  (body : Z -> S -> step S) (s : S) : S :=
  match count with
  | O => s
  | Datatypes.S count' =>
      match body i s with
      | Continue s' => iterateBrk count' (i + 1) body s'
      | Break s' => s'
      end
  end.

Definition forLoopBrk {S : Type} (lo hi : Z) (body : Z -> S -> step S)
  (s : S) : S :=
  iterateBrk (Z.to_nat (hi - lo)) lo body s.

(** ** Sorting *)

(** [arr.sort(cmp)]: a stable sort.  An element moves behind another one
    only when the comparator is positive on them; a comparator result of
    [NaN] counts as 0. *)
Section Sort.
Context {A : Type} (cmp : A -> A -> number).

Fixpoint insert (x : A) (l : list A) : list A :=
  match l with
  | [] => [x]
  | y :: l' => if positive (cmp x y) then y :: insert x l' else x :: l
  end.

Fixpoint sort (l : list A) : list A :=
  match l with
  | [] => []
  | x :: l' => insert x (sort l')
  end.

End Sort.

End JS.

Import JS.

(* ================================================================== *)
(** * Helpers (the same in both files)                                *)
(* ================================================================== *)

Record Clock : Type := mkClock { h : number; m : number }.

(** [const [h, m] = t.split(":").map(Number)]; a part that is missing is
    [undefined], which [setHours] reads as [NaN]. *)
Definition parseTime (t : string) : Clock :=
  let parts := map Number (split ":"%char t) in
  {| h := nth 0 parts NaN; m := nth 1 parts NaN |}.

Definition addDays (date : Date) (days : Z) : Date :=
  let d := date in
  plusDays d days.

Definition pad (n : number) : string := padStart2 (toString n).

Definition toICSDateTime (d : Date) : string :=
  (toString (getFullYear d) ++ pad (add (getMonth d) (Int 1)) ++ pad (getDate d)
   ++ "T" ++ pad (getHours d) ++ pad (getMinutes d) ++ "00")%string.

Record Event : Type := mkEvent {
  title : string;
  start : Date;
  end_ : Date
}.

Definition buildEvent (title : string) (start end_ : Date) : Event :=
  {| title := title; start := start; end_ := end_ |}.

(** The comparator of the final sort, [(a, b) => a.start - b.start]. *)
Definition byStart (a b : Event) : number := sub (start a) (start b).

(** What [generateSchedule] hands back: a schedule, or a thrown error with
    its message. *)
Inductive Result : Type :=
| Return (events : list Event)
| Throw (message : string).

(* ================================================================== *)
(** * The three-role generator ([src/unnamed/part_000])               *)
(* ================================================================== *)

Module PolicyA.

Record Params : Type := mkParams {
  startDate : Date;        (* the value of [new Date(startDate)] *)
  years : Q;               (* the value of the double [years] *)
  rotationOrder : list string;

  hospStartTime : string;
  hospEndTime : string;

  odcStartTime : string;
  odcEndTime : string;

  lanePatternWeeks : number;
  laneStartTime : string;
  laneEndTime : string;

  showOff : bool;
  doubleOffOnLaneWeeks : bool;

  weekendStartTime : string;
  weekendEndTime : string;
  laneWeekendEvery : number
}.

Definition totalDays (params : Params) : Z :=
  Qfloor (times (years params) 365.25).

Definition endDate (params : Params) : Date :=
  addDays (startDate params) (totalDays params).

Definition weeksTotal (params : Params) : Z :=
  Qceiling (inject_Z (totalDays params) / 7).

Definition n (people : list string) : number :=
  Int (Z.of_nat (List.length people)).

Definition hospitalForWeek (people : list string) (w : Z) : option string :=
  index people (rem (Int w) (n people)).

Definition odcForWeek (people : list string) (w : Z) : option string :=
  index people (rem (add (Int w) (Int 1)) (n people)).

Definition offForWeek (people : list string) (w : Z) : option string :=
  index people (rem (add (Int w) (Int 2)) (n people)).

Definition isLaneWeek (params : Params) (w : Z) : bool :=
  strictEq (rem (Int w) (lanePatternWeeks params)) (Int 0).

Definition isLaneWeekend (params : Params) (w : Z) : bool :=
  strictEq (rem (Int w) (laneWeekendEvery params)) (Int 0).

(** One turn of the weekday loop, [for (let day = 0; day < 5; day++)]. *)
Definition weekdayBody (params : Params) (end_ weekStart : Date)
  (hospPerson odcPerson offPerson : option string) (laneWeek : bool)
  (day : Z) (shifts : list Event) : step (list Event) :=
  let date := addDays weekStart day in
  if gt date end_ then Break shifts else

  (* Hospital (always) *)
  let shifts :=
    let st := date in
    let et := date in
    let hs := parseTime (hospStartTime params) in
    let he := parseTime (hospEndTime params) in
    let st := setHours st (h hs) (m hs) in
    let et := setHours et (h he) (m he) in
    push shifts (buildEvent ("HOSPITAL " ++ show hospPerson)%string st et) in

  (* ODC / Lane logic *)
  let shifts :=
    if laneWeek then
      (* Lane takes ODC slot *)
      let st := date in
      let et := date in
      let ls := parseTime (laneStartTime params) in
      let le := parseTime (laneEndTime params) in
      let st := setHours st (h ls) (m ls) in
      let et := setHours et (h le) (m le) in
      let shifts := push shifts (buildEvent "ODC Lane" st et) in

      (* Would-be ODC person is OFF (weekday block) *)
      let shifts :=
        if showOff params then
          let ost := date in
          let oet := date in
          let os := parseTime (odcStartTime params) in
          let oe := parseTime (odcEndTime params) in
          let ost := setHours ost (h os) (m os) in
          let oet := setHours oet (h oe) (m oe) in
          push shifts (buildEvent ("OFF " ++ show odcPerson)%string ost oet)
        else shifts in

      (* Optionally: keep the normal OFF person off too *)
      if showOff params && doubleOffOnLaneWeeks params then
        let ost := date in
        let oet := date in
        let os := parseTime (odcStartTime params) in
        let oe := parseTime (odcEndTime params) in
        let ost := setHours ost (h os) (m os) in
        let oet := setHours oet (h oe) (m oe) in
        push shifts (buildEvent ("OFF " ++ show offPerson)%string ost oet)
      else shifts
    else
      (* Normal ODC person works *)
      let st := date in
      let et := date in
      let os := parseTime (odcStartTime params) in
      let oe := parseTime (odcEndTime params) in
      let st := setHours st (h os) (m os) in
      let et := setHours et (h oe) (m oe) in
      let shifts := push shifts (buildEvent ("ODC " ++ show odcPerson)%string st et) in

      (* Normal OFF person *)
      if showOff params then
        let ost := date in
        let oet := date in
        let ost := setHours ost (h os) (m os) in
        let oet := setHours oet (h oe) (m oe) in
        push shifts (buildEvent ("OFF " ++ show offPerson)%string ost oet)
      else shifts in
  Continue shifts.

(** The weekend block that closes a turn of the week loop. *)
Definition weekendBlock (params : Params) (end_ weekStart : Date)
  (hospPerson : option string) (week : Z) (shifts : list Event)
  : list Event :=
  let sat := addDays weekStart 5 in
  let sun := addDays weekStart 6 in
  if le sat end_ then
    let st := sat in
    let et := sun in
    let ws := parseTime (weekendStartTime params) in
    let we := parseTime (weekendEndTime params) in
    let st := setHours st (h ws) (m ws) in
    let et := setHours et (h we) (m we) in
    let weekendTitle :=
      (if isLaneWeekend params week then "Weekend Lane"
       else "Weekend " ++ show hospPerson)%string in
    push shifts (buildEvent weekendTitle st et)
  else shifts.

(** One turn of the week loop,
    [for (let week = 0; week < weeksTotal; week++)]. *)
Definition weekBody (params : Params) (start end_ : Date)
  (people : list string) (week : Z) (shifts : list Event) : list Event :=
  let weekStart := addDays start (week * 7) in

  let hospPerson := hospitalForWeek people week in
  let odcPerson := odcForWeek people week in
  let offPerson := offForWeek people week in

  let laneWeek := isLaneWeek params week in

  (* Weekday shifts (Mon-Fri) *)
  let shifts :=
    forLoopBrk 0 5
      (weekdayBody params end_ weekStart hospPerson odcPerson offPerson
         laneWeek)
      shifts in

  (* Weekend *)
  weekendBlock params end_ weekStart hospPerson week shifts.

(** The array [shifts] when the week loop is over, before it is sorted. *)
Definition shiftsBeforeSort (params : Params) : list Event :=
  let shifts := [] in
  let start := startDate params in
  let end_ := endDate params in
  let people := rotationOrder params in
  forLoop 0 (weeksTotal params) (weekBody params start end_ people) shifts.

Definition generateSchedule (params : Params) : Result :=
  let people := rotationOrder params in
  if (List.length people <? 3)%nat then
    Throw "Rotation order must include at least 3 people (Hospital / ODC / OFF)."
  else
    Return (sort byStart (shiftsBeforeSort params)).

End PolicyA.

(* ================================================================== *)
(** * The single-role generator ([src/app.js])                        *)
(* ================================================================== *)

Module PolicyB.

Record Params : Type := mkParams {
  startDate : Date;        (* the value of [new Date(startDate)] *)
  years : Q;               (* the value of the double [years] *)
  lanePatternWeeks : number;
  laneStartTime : string;
  laneEndTime : string;

  hospStartTime : string;
  hospEndTime : string;
  rotationOrder : list string;
  rotationWeeks : number;

  odcStartTime : string;
  odcEndTime : string;
  hideODCWhenLane : bool;

  weekendStartTime : string;
  weekendEndTime : string;
  laneWeekendEvery : number
}.

Definition totalDays (params : Params) : Z :=
  Qfloor (times (years params) 365.25).

Definition endDate (params : Params) : Date :=
  addDays (startDate params) (totalDays params).

Definition weeksTotal (params : Params) : Z :=
  Qceiling (inject_Z (totalDays params) / 7).

Definition personForWeek (params : Params) (weekIndex : Z) : option string :=
  index (rotationOrder params) (rem (Int weekIndex) (rotationWeeks params)).

Definition isLaneWeek (params : Params) (weekIndex : Z) : bool :=
  strictEq (rem (Int weekIndex) (lanePatternWeeks params)) (Int 0).

Definition isLaneWeekend (params : Params) (weekIndex : Z) : bool :=
  strictEq (rem (Int weekIndex) (laneWeekendEvery params)) (Int 0).

(** One turn of the weekday loop, [for (let day = 0; day < 5; day++)]. *)
Definition weekdayBody (params : Params) (end_ weekStart : Date)
  (person : option string) (week day : Z) (shifts : list Event)
  : step (list Event) :=
  let date := addDays weekStart day in

  if gt date end_ then Break shifts else

  (* Hospital shift (always) *)
  let shifts :=
    let st := date in
    let et := date in
    let hs := parseTime (hospStartTime params) in
    let he := parseTime (hospEndTime params) in
    let st := setHours st (h hs) (m hs) in
    let et := setHours et (h he) (m he) in
    push shifts (buildEvent ("HOSPITAL " ++ show person)%string st et) in

  (* ODC shift (unless hidden by Lane precedence) *)
  let shifts :=
    if negb (hideODCWhenLane params && isLaneWeek params week) then
      let st := date in
      let et := date in
      let os := parseTime (odcStartTime params) in
      let oe := parseTime (odcEndTime params) in
      let st := setHours st (h os) (m os) in
      let et := setHours et (h oe) (m oe) in
      push shifts (buildEvent ("ODC " ++ show person)%string st et)
    else shifts in

  (* Lane shift (only on lane weeks) *)
  let shifts :=
    if isLaneWeek params week then
      let st := date in
      let et := date in
      let ls := parseTime (laneStartTime params) in
      let le := parseTime (laneEndTime params) in
      let st := setHours st (h ls) (m ls) in
      let et := setHours et (h le) (m le) in
      push shifts (buildEvent "ODC Lane" st et)
    else shifts in
  Continue shifts.

(** The weekend block that closes a turn of the week loop. *)
Definition weekendBlock (params : Params) (end_ weekStart : Date)
  (person : option string) (week : Z) (shifts : list Event) : list Event :=
  let sat := addDays weekStart 5 in
  let sun := addDays weekStart 6 in

  if le sat end_ then
    let st := sat in
    let et := sun in

    let ws := parseTime (weekendStartTime params) in
    let we := parseTime (weekendEndTime params) in

    let st := setHours st (h ws) (m ws) in
    let et := setHours et (h we) (m we) in

    let weekendTitle :=
      (if isLaneWeekend params week then "Weekend Lane"
       else "Weekend " ++ show person)%string in

    push shifts (buildEvent weekendTitle st et)
  else shifts.

(** One turn of the week loop,
    [for (let week = 0; week < weeksTotal; week++)]. *)
Definition weekBody (params : Params) (start end_ : Date) (week : Z)
  (shifts : list Event) : list Event :=
  let weekStart := addDays start (week * 7) in
  let person := personForWeek params week in

  (* Weekday shifts (Mon-Fri) *)
  let shifts :=
    forLoopBrk 0 5 (weekdayBody params end_ weekStart person week) shifts in

  (* Weekend shift *)
  weekendBlock params end_ weekStart person week shifts.

(** The array [shifts] when the week loop is over, before it is sorted. *)
Definition shiftsBeforeSort (params : Params) : list Event :=
  let shifts := [] in
  let start := startDate params in
  let end_ := endDate params in
  forLoop 0 (weeksTotal params) (weekBody params start end_) shifts.

(** This version has no [throw]: every call returns. *)
Definition generateSchedule (params : Params) : Result :=
  Return (sort byStart (shiftsBeforeSort params)).

End PolicyB.

(* ================================================================== *)
(** * iCal export (the same in both files)                            *)
(* ================================================================== *)

Module ICS.

Definition CRLF : string := String "013" (String "010" EmptyString).

(** The body of [for (const e of events)]; [k] counts the events exported
    so far, [uid k] is what [crypto.randomUUID()] returns in this turn and
    [now k] what [new Date()] reads. *)
Definition eventBody (uid : nat -> string) (now : nat -> Date)
  (state : nat * list string) (e : Event) : nat * list string :=
  let '(k, lines) := state in
  let uid := uid k in
  let lines := push lines "BEGIN:VEVENT"%string in
  let lines := push lines ("UID:" ++ uid)%string in
  let lines := push lines ("DTSTAMP:" ++ toICSDateTime (now k))%string in
  let lines := push lines ("SUMMARY:" ++ title e)%string in
  let lines := push lines ("DTSTART:" ++ toICSDateTime (start e))%string in
  let lines := push lines ("DTEND:" ++ toICSDateTime (end_ e))%string in
  let lines := push lines "END:VEVENT"%string in
  (S k, lines).

Definition exportICS (uid : nat -> string) (now : nat -> Date)
  (events : list Event) : string :=
  let lines := [] in
  let lines := push lines "BEGIN:VCALENDAR"%string in
  let lines := push lines "VERSION:2.0"%string in
  let lines := push lines "PRODID:-//ShiftScheduler//EN"%string in

  let '(_, lines) := fold_left (eventBody uid now) events (O, lines) in

  let lines := push lines "END:VCALENDAR"%string in
  String.concat CRLF lines.

End ICS.

(* ================================================================== *)
(** * The vocabulary of the statements                              *)
(* ================================================================== *)

(** The definitions of this part are not in the source: they name what
    the theorems talk about, following the description of a week in the
    specification (section 4.3), and are compared with the loops of the
    source in the last part. *)

(** The indices [lo, lo+1, ...] a loop visits in [count] turns. *)
Fixpoint zseq (lo : Z) (count : nat) : list Z :=
  match count with
  | O => []
  | S count' => lo :: zseq (lo + 1) count'
  end.

(** The indices visited before the first one at which the loop breaks. *)
Fixpoint untilBreak (brk : Z -> bool) (l : list Z) : list Z :=
  match l with
  | [] => []
  | i :: l' => if brk i then [] else i :: untilBreak brk l'
  end.

(** A date moved to a clock time given as text, as the source does with
    [parseTime] and [setHours]. *)
Definition atClock (date : Date) (t : string) : Date :=
  setHours date (h (parseTime t)) (m (parseTime t)).

(** The five weekday offsets of a week. *)
Definition weekdays : list Z := [0; 1; 2; 3; 4].

(** The weekday offsets of the week starting at [weekStart] whose date is
    not after [end_]. *)
Definition daysInRange (weekStart end_ : Date) : list Z :=
  filter (fun day => negb (gt (addDays weekStart day) end_)) weekdays.

(** The week indices [0 .. weeksTotal - 1]. *)
Definition weeks (weeksTotal : Z) : list Z :=
  zseq 0 (Z.to_nat weeksTotal).



Module DescribedA.
Import PolicyA.

(** The events of one weekday of a week, in the order they are pushed. *)
Definition dayEvents (params : Params) (week : Z) (date : Date)
  : list Event :=
  let people := rotationOrder params in
  let odcAt who :=
    buildEvent who (atClock date (odcStartTime params))
      (atClock date (odcEndTime params)) in
  [buildEvent ("HOSPITAL " ++ show (hospitalForWeek people week))%string
     (atClock date (hospStartTime params))
     (atClock date (hospEndTime params))]
  ++ (if isLaneWeek params week then
        [buildEvent "ODC Lane" (atClock date (laneStartTime params))
           (atClock date (laneEndTime params))]
        ++ (if showOff params
            then [odcAt ("OFF " ++ show (odcForWeek people week))%string]
            else [])
        ++ (if showOff params && doubleOffOnLaneWeeks params
            then [odcAt ("OFF " ++ show (offForWeek people week))%string]
            else [])
      else
        [odcAt ("ODC " ++ show (odcForWeek people week))%string]
        ++ (if showOff params
            then [odcAt ("OFF " ++ show (offForWeek people week))%string]
            else []))%list.

(** The weekend event of a week, when its Saturday is not after the end. *)
Definition weekendEvents (params : Params) (week : Z) : list Event :=
  let weekStart := addDays (startDate params) (week * 7) in
  let sat := addDays weekStart 5 in
  let sun := addDays weekStart 6 in
  if le sat (endDate params) then
    [buildEvent
       (if isLaneWeekend params week then "Weekend Lane"
        else "Weekend " ++ show (hospitalForWeek (rotationOrder params) week))%string
       (atClock sat (weekendStartTime params))
       (atClock sun (weekendEndTime params))]
  else [].

(** The events of one week: its weekdays in range, then its weekend. *)
Definition weekEvents (params : Params) (week : Z) : list Event :=
  let weekStart := addDays (startDate params) (week * 7) in
  (flat_map (fun day => dayEvents params week (addDays weekStart day))
     (daysInRange weekStart (endDate params))
   ++ weekendEvents params week)%list.

End DescribedA.

Module DescribedB.
Import PolicyB.

(** The events of one weekday of a week, in the order they are pushed. *)
Definition dayEvents (params : Params) (week : Z) (date : Date)
  : list Event :=
  let person := personForWeek params week in
  ([buildEvent ("HOSPITAL " ++ show person)%string
      (atClock date (hospStartTime params))
      (atClock date (hospEndTime params))]
   ++ (if hideODCWhenLane params && isLaneWeek params week then []
       else [buildEvent ("ODC " ++ show person)%string
               (atClock date (odcStartTime params))
               (atClock date (odcEndTime params))])
   ++ (if isLaneWeek params week
       then [buildEvent "ODC Lane" (atClock date (laneStartTime params))
               (atClock date (laneEndTime params))]
       else []))%list.

(** The weekend event of a week, when its Saturday is not after the end. *)
Definition weekendEvents (params : Params) (week : Z) : list Event :=
  let weekStart := addDays (startDate params) (week * 7) in
  let sat := addDays weekStart 5 in
  let sun := addDays weekStart 6 in
  if le sat (endDate params) then
    [buildEvent
       (if isLaneWeekend params week then "Weekend Lane"
        else "Weekend " ++ show (personForWeek params week))%string
       (atClock sat (weekendStartTime params))
       (atClock sun (weekendEndTime params))]
  else [].

(** The events of one week: its weekdays in range, then its weekend. *)
Definition weekEvents (params : Params) (week : Z) : list Event :=
  let weekStart := addDays (startDate params) (week * 7) in
  (flat_map (fun day => dayEvents params week (addDays weekStart day))
     (daysInRange weekStart (endDate params))
   ++ weekendEvents params week)%list.

End DescribedB.

(** An event whose start is a valid date, with its time value. *)
Definition startsAt (e : Event) (t : Z) : Prop := start e = Time t.

Definition validStart (e : Event) : Prop := exists t, startsAt e t.

(** [a] does not start after [b]. *)
Definition notAfter (a b : Event) : Prop :=
  exists ta tb, startsAt a ta /\ startsAt b tb /\ ta <= tb.

(** The events that start at the time value [t]. *)
Definition startingAt (t : Z) (e : Event) : bool :=
  match start e with
  | Time u => u =? t
  | InvalidDate => false
  end.

(** A clock text that [parseTime] reads as two numbers. *)
Definition validClock (t : string) : Prop :=
  exists hh mm, parseTime t = {| h := Int hh; m := Int mm |}.

(** The parameter sets with a valid start date and readable window starts
    (the end of a window plays no part in the order). *)
Definition validA (p : PolicyA.Params) : Prop :=
  (exists t, PolicyA.startDate p = Time t) /\
  validClock (PolicyA.hospStartTime p) /\
  validClock (PolicyA.odcStartTime p) /\
  validClock (PolicyA.laneStartTime p) /\
  validClock (PolicyA.weekendStartTime p).

Definition validB (p : PolicyB.Params) : Prop :=
  (exists t, PolicyB.startDate p = Time t) /\
  validClock (PolicyB.hospStartTime p) /\
  validClock (PolicyB.odcStartTime p) /\
  validClock (PolicyB.laneStartTime p) /\
  validClock (PolicyB.weekendStartTime p).

(** The events with the title [name]. *)
Definition titled (name : string) (e : Event) : bool :=
  String.eqb (title e) name.

(** The digit of the units of [v]. *)
Definition digit (v : Z) : ascii := ascii_of_N (48 + Z.to_N (v mod 10)).

(** [v] written with exactly [width] decimal digits. *)
Fixpoint fixedWidth (width : nat) (v : Z) : string :=
  match width with
  | O => EmptyString
  | S width' => (fixedWidth width' (v / 10) ++ String (digit v) EmptyString)%string
  end.

(** The seven lines of the event exported in turn [k]. *)
Definition eventLines (uid : nat -> string) (now : nat -> Date)
  (entry : nat * Event) : list string :=
  let '(k, e) := entry in
  [ "BEGIN:VEVENT";
    "UID:" ++ uid k;
    "DTSTAMP:" ++ toICSDateTime (now k);
    "SUMMARY:" ++ title e;
    "DTSTART:" ++ toICSDateTime (start e);
    "DTEND:" ++ toICSDateTime (end_ e);
    "END:VEVENT" ]%string.

(** The events with the number of their turn. *)
Definition numbered (from : nat) (events : list Event) : list (nat * Event) :=
  combine (seq from (List.length events)) events.

(* ================================================================== *)
(** * The doubles of the kernel                                       *)
(* ================================================================== *)

(** Rocq's kernel has the binary64 numbers and their IEEE 754 operations,
    the arithmetic of a JS number.  [double], [times] and [divide] are run
    against them on the values below. *)
Module KernelFloats.

Import PrimFloat.

#[local] Set Warnings "-inexact-float".

(** The rational that a float stands for; [None] for an infinity and for
    [NaN]. *)
Definition valueOf (f : float) : option Q :=
  match FloatOps.Prim2SF f with
  | SpecFloat.S754_zero _ => Some 0%Q
  | SpecFloat.S754_finite s m e =>
      Some ((if s then -1 else 1) * inject_Z (Zpos m) * pow2 e)%Q
  | _ => None
  end.

(** The literal [f] is the double nearest to the decimal [x]. *)
Definition sameLiteral (x : Q) (f : float) : bool :=
  match valueOf f with
  | Some y => Qeq_bool (double x) y
  | None => false
  end.

(** [a * b] of the kernel is [times]; [a / b] is [divide]. *)
Definition sameProduct (a b : float) : bool :=
  match valueOf a, valueOf b, valueOf (a * b)%float with
  | Some x, Some y, Some p => Qeq_bool (times x y) p
  | _, _, _ => false
  end.

Definition sameQuotient (a b : float) : bool :=
  match valueOf a, valueOf b, valueOf (a / b)%float with
  | Some x, Some y, Some p => Qeq_bool (divide x y) p
  | _, _, _ => false
  end.

Definition literals : list (Q * float) :=
  [(0.02%Q, 0.02%float); (0.03%Q, 0.03%float); (0.003%Q, 0.003%float);
   (0.0027378507871321013%Q, 0.0027378507871321013%float);
   (365.25%Q, 365.25%float); (0.1%Q, 0.1%float); (1%Q, 1%float);
   (1e-320%Q, 1e-320%float); (123456789.123456789%Q, 123456789.123456789%float)].

(** Durations in years: the samples, the doubles nearest to [N / 365.25]
    for some [N], and values of other sizes. *)
Definition durations : list float :=
  [0; 0.02; 0.03; 0.003; 0.0027378507871321013; 0.005475701574264203;
   0.019164955509924708; 0.25; 0.5; 1; 2; 2.5; 10; 99.99; 1e-5; 1e-310;
   -0.4; 12345678.9; 1e12]%float.

Definition dayCounts : list float :=
  [0; 1; 6; 7; 8; 10; 13; 14; 365; 730; 1461; 36525; -3;
   4503599627370495]%float.

Definition literalsAgree : bool :=
  forallb (fun p => sameLiteral (fst p) (snd p)) literals.

Definition productsAgree : bool :=
  forallb (fun y => sameProduct y 365.25) durations.

Definition quotientsAgree : bool :=
  forallb (fun d => sameQuotient d 7) dayCounts.

End KernelFloats.

(* ================================================================== *)
(** * Sample parameter sets                                         *)
(* ================================================================== *)

(** Monday 2024-01-01, local midnight: day 19723 after 1970-01-01. *)
Definition monday : Date := Time (19723 * msPerDay).

(** Three people, lane every fourth week, both OFF options on; 0.02 years
    are 7 days. *)
Definition sampleA : PolicyA.Params := {|
  PolicyA.startDate := monday;
  PolicyA.years := double 0.02;
  PolicyA.rotationOrder := ["A"; "B"; "C"]%string;
  PolicyA.hospStartTime := "07:00";
  PolicyA.hospEndTime := "17:00";
  PolicyA.odcStartTime := "17:00";
  PolicyA.odcEndTime := "23:00";
  PolicyA.lanePatternWeeks := Int 4;
  PolicyA.laneStartTime := "08:00";
  PolicyA.laneEndTime := "12:00";
  PolicyA.showOff := true;
  PolicyA.doubleOffOnLaneWeeks := true;
  PolicyA.weekendStartTime := "06:00";
  PolicyA.weekendEndTime := "23:59";
  PolicyA.laneWeekendEvery := Int 2
|}.

(** Three people in a cycle of three weeks, lane every second week hiding
    the ODC block; 0.03 years are 10 days. *)
Definition sampleB : PolicyB.Params := {|
  PolicyB.startDate := monday;
  PolicyB.years := double 0.03;
  PolicyB.lanePatternWeeks := Int 2;
  PolicyB.laneStartTime := "08:00";
  PolicyB.laneEndTime := "12:00";
  PolicyB.hospStartTime := "07:00";
  PolicyB.hospEndTime := "17:00";
  PolicyB.rotationOrder := ["A"; "B"; "C"]%string;
  PolicyB.rotationWeeks := Int 3;
  PolicyB.odcStartTime := "17:00";
  PolicyB.odcEndTime := "23:00";
  PolicyB.hideODCWhenLane := true;
  PolicyB.weekendStartTime := "06:00";
  PolicyB.weekendEndTime := "23:59";
  PolicyB.laneWeekendEvery := Int 2
|}.

(** [sampleB] with nobody in the rotation, over a single day. *)
Definition nobodyB : PolicyB.Params := {|
  PolicyB.startDate := monday;
  PolicyB.years := double 0.003;
  PolicyB.lanePatternWeeks := Int 2;
  PolicyB.laneStartTime := "08:00";
  PolicyB.laneEndTime := "12:00";
  PolicyB.hospStartTime := "07:00";
  PolicyB.hospEndTime := "17:00";
  PolicyB.rotationOrder := [];
  PolicyB.rotationWeeks := Int 3;
  PolicyB.odcStartTime := "17:00";
  PolicyB.odcEndTime := "23:00";
  PolicyB.hideODCWhenLane := false;
  PolicyB.weekendStartTime := "06:00";
  PolicyB.weekendEndTime := "23:59";
  PolicyB.laneWeekendEvery := Int 2
|}.

(** [sampleA] and [sampleB] with both cadences set to 0. *)
Definition zeroA : PolicyA.Params := {|
  PolicyA.startDate := monday;
  PolicyA.years := double 0.02;
  PolicyA.rotationOrder := ["A"; "B"; "C"]%string;
  PolicyA.hospStartTime := "07:00";
  PolicyA.hospEndTime := "17:00";
  PolicyA.odcStartTime := "17:00";
  PolicyA.odcEndTime := "23:00";
  PolicyA.lanePatternWeeks := Int 0;
  PolicyA.laneStartTime := "08:00";
  PolicyA.laneEndTime := "12:00";
  PolicyA.showOff := true;
  PolicyA.doubleOffOnLaneWeeks := true;
  PolicyA.weekendStartTime := "06:00";
  PolicyA.weekendEndTime := "23:59";
  PolicyA.laneWeekendEvery := Int 0
|}.

Definition zeroB : PolicyB.Params := {|
  PolicyB.startDate := monday;
  PolicyB.years := double 0.03;
  PolicyB.lanePatternWeeks := Int 0;
  PolicyB.laneStartTime := "08:00";
  PolicyB.laneEndTime := "12:00";
  PolicyB.hospStartTime := "07:00";
  PolicyB.hospEndTime := "17:00";
  PolicyB.rotationOrder := ["A"; "B"; "C"]%string;
  PolicyB.rotationWeeks := Int 3;
  PolicyB.odcStartTime := "17:00";
  PolicyB.odcEndTime := "23:00";
  PolicyB.hideODCWhenLane := true;
  PolicyB.weekendStartTime := "06:00";
  PolicyB.weekendEndTime := "23:59";
  PolicyB.laneWeekendEvery := Int 0
|}.

(** [sampleB] with the duration 1/365.25 as a double: the exact product
    with 365.25 is just below 1, the double product is 1. *)
Definition dayShortOfExact : PolicyB.Params := {|
  PolicyB.startDate := monday;
  PolicyB.years := double 0.0027378507871321013;
  PolicyB.rotationOrder := PolicyB.rotationOrder sampleB;
  PolicyB.rotationWeeks := PolicyB.rotationWeeks sampleB;
  PolicyB.hospStartTime := PolicyB.hospStartTime sampleB;
  PolicyB.hospEndTime := PolicyB.hospEndTime sampleB;
  PolicyB.odcStartTime := PolicyB.odcStartTime sampleB;
  PolicyB.odcEndTime := PolicyB.odcEndTime sampleB;
  PolicyB.lanePatternWeeks := PolicyB.lanePatternWeeks sampleB;
  PolicyB.laneStartTime := PolicyB.laneStartTime sampleB;
  PolicyB.laneEndTime := PolicyB.laneEndTime sampleB;
  PolicyB.hideODCWhenLane := PolicyB.hideODCWhenLane sampleB;
  PolicyB.weekendStartTime := PolicyB.weekendStartTime sampleB;
  PolicyB.weekendEndTime := PolicyB.weekendEndTime sampleB;
  PolicyB.laneWeekendEvery := PolicyB.laneWeekendEvery sampleB
|}.

(** [sampleA] with a duration of 0 years. *)
Definition zeroYears : PolicyA.Params := {|
  PolicyA.startDate := monday;
  PolicyA.years := 0;
  PolicyA.rotationOrder := ["A"; "B"; "C"]%string;
  PolicyA.hospStartTime := "07:00";
  PolicyA.hospEndTime := "17:00";
  PolicyA.odcStartTime := "17:00";
  PolicyA.odcEndTime := "23:00";
  PolicyA.lanePatternWeeks := Int 4;
  PolicyA.laneStartTime := "08:00";
  PolicyA.laneEndTime := "12:00";
  PolicyA.showOff := true;
  PolicyA.doubleOffOnLaneWeeks := true;
  PolicyA.weekendStartTime := "06:00";
  PolicyA.weekendEndTime := "23:59";
  PolicyA.laneWeekendEvery := Int 2
|}.

(* ================================================================== *)
(** * The model on small inputs                                       *)
(* ================================================================== *)

Module Examples.

Example parseTime_clock :
  parseTime "08:30" = {| h := Int 8; m := Int 30 |}.
Proof. reflexivity. Qed.

(** Without a colon there is no second part: the minutes are [NaN]. *)
Example parseTime_no_colon :
  parseTime "0830" = {| h := Int 830; m := NaN |}.
Proof. reflexivity. Qed.

Example parseTime_not_a_number :
  parseTime "8h:30" = {| h := NaN; m := Int 30 |}.
Proof. reflexivity. Qed.

(** The remainder has the sign of the dividend, and [x % 0] is [NaN]. *)
Example rem_signs :
  rem (Int 5) (Int (-4)) = Int 1 /\ rem (Int (-5)) (Int 4) = Int (-1) /\
  rem (Int 6) (Int 0) = NaN.
Proof. repeat split. Qed.

Example index_outside :
  index ["A"; "B"]%string (Int 2) = None /\
  index ["A"; "B"]%string NaN = None /\
  index ["A"; "B"]%string (Int 1) = Some "B"%string.
Proof. repeat split. Qed.

Example civil_dates :
  civil 0 = (1970, 1, 1) /\ civil (-1) = (1969, 12, 31) /\
  civil 11016 = (2000, 2, 29) /\ civil 19723 = (2024, 1, 1) /\
  civil 19782 = (2024, 2, 29) /\ civil 20088 = (2024, 12, 31).
Proof. repeat split. Qed.

(** Hours past 23 roll over into the next day. *)
Example setHours_rolls_over :
  toICSDateTime (setHours monday (Int 25) (Int 99)) = "20240102T023900"%string.
Proof. reflexivity. Qed.

Example toICSDateTime_invalid :
  toICSDateTime InvalidDate = "NaNNaNNaNTNaNNaN00"%string.
Proof. reflexivity. Qed.

(** [sampleB] runs over 10 days: a full first week, a lane week without
    ODC events, and four days of the second week. *)
Example sampleB_titles :
  match PolicyB.generateSchedule sampleB with
  | Return events => map title events
  | Throw _ => []
  end
  = [ "HOSPITAL A"; "ODC Lane"; "HOSPITAL A"; "ODC Lane"; "HOSPITAL A";
      "ODC Lane"; "HOSPITAL A"; "ODC Lane"; "HOSPITAL A"; "ODC Lane";
      "Weekend Lane";
      "HOSPITAL B"; "ODC B"; "HOSPITAL B"; "ODC B"; "HOSPITAL B"; "ODC B";
      "HOSPITAL B"; "ODC B" ]%string.
Proof. vm_compute. reflexivity. Qed.

(** The sort moves an event only behind events that start earlier. *)
Example sort_is_stable :
  map title
    (sort byStart
       [ buildEvent "late" (Time 20) (Time 30);
         buildEvent "first of two" (Time 10) (Time 30);
         buildEvent "second of two" (Time 10) (Time 20);
         buildEvent "early" (Time 5) (Time 6) ])
  = [ "early"; "first of two"; "second of two"; "late" ]%string.
Proof. reflexivity. Qed.

End Examples.

(* ================================================================== *)
(** * Loops that only append                                          *)
(* ================================================================== *)

Module LoopFacts.

Lemma in_zseq (lo : Z) (count : nat) (i : Z) :
  In i (zseq lo count) <-> lo <= i < lo + Z.of_nat count.
Proof.
  revert lo; induction count as [|c IH]; intros lo; simpl.
  - lia.
  - rewrite IH. lia.
Qed.

Section Append.
Context {A : Type}.
Variable emit : Z -> list A.

(** A body that pushes [emit i] in turn [i]. *)
Lemma iterate_append (body : Z -> list A -> list A) :
  (forall i s, body i s = (s ++ emit i)%list) ->
  forall count lo s,
    iterate count lo body s = (s ++ flat_map emit (zseq lo count))%list.
Proof.
  intros Hbody; induction count as [|c IH]; intros lo s; simpl.
  - now rewrite app_nil_r.
  - rewrite IH, Hbody, <- app_assoc. reflexivity.
Qed.

(** A body that breaks at the indices [brk] and pushes [emit i]
    otherwise. *)
Lemma iterateBrk_append (brk : Z -> bool)
  (body : Z -> list A -> step (list A)) :
  (forall i s,
      body i s = if brk i then Break s else Continue (s ++ emit i)%list) ->
  forall count lo s,
    iterateBrk count lo body s
    = (s ++ flat_map emit (untilBreak brk (zseq lo count)))%list.
Proof.
  intros Hbody; induction count as [|c IH]; intros lo s; simpl.
  - now rewrite app_nil_r.
  - rewrite Hbody. destruct (brk lo); simpl.
    + now rewrite app_nil_r.
    + rewrite IH, <- app_assoc. reflexivity.
Qed.
End Append.

(** When a break condition, once true, stays true, the turns before the
    break are the turns at which the condition is false. *)
Lemma untilBreak_filter (brk : Z -> bool) :
  (forall i j, i <= j -> brk i = true -> brk j = true) ->
  forall count lo,
    untilBreak brk (zseq lo count)
    = filter (fun i => negb (brk i)) (zseq lo count).
Proof.
  intros Hmono; induction count as [|c IH]; intros lo; simpl.
  - reflexivity.
  - destruct (brk lo) eqn:Hlo; simpl.
    + assert (Hall : forall j, In j (zseq (lo + 1) c) -> brk j = true).
      { intros j Hj. apply in_zseq in Hj. apply (Hmono lo j); [lia | exact Hlo]. }
      clear IH. induction (zseq (lo + 1) c) as [|j l IHl]; simpl.
      * reflexivity.
      * rewrite (Hall j (or_introl eq_refl)). simpl.
        apply IHl. intros j' Hj'. apply Hall. now right.
    + now rewrite IH.
Qed.

(** A break at index [k] cuts the loop down to the turns before [k]. *)
Lemma iterateBrk_cut {S : Type} (body : Z -> S -> step S) (k : Z) :
  (forall s, body k s = Break s) ->
  forall a b lo s,
    k = lo + Z.of_nat a ->
    iterateBrk (a + Datatypes.S b) lo body s = iterateBrk a lo body s.
Proof.
  intros Hk; induction a as [|a IH]; intros b lo s Hlo.
  - simpl in *. replace lo with k by lia. now rewrite Hk.
  - cbn [Nat.add iterateBrk]. destruct (body lo s); [|reflexivity].
    apply IH. lia.
Qed.

End LoopFacts.

Module DatesFacts.

Lemma gt_addDays_mono (weekStart end_ : Date) (i j : Z) :
  i <= j ->
  gt (addDays weekStart i) end_ = true ->
  gt (addDays weekStart j) end_ = true.
Proof.
  destruct weekStart as [t|], end_ as [e|]; simpl; try discriminate.
  unfold msPerDay. intros Hij H. apply Z.ltb_lt in H. apply Z.ltb_lt. lia.
Qed.

Lemma gt_not_le (a b : Date) : gt a b = true -> le a b = false.
Proof.
  destruct a, b; simpl; try discriminate.
  intros H. apply Z.ltb_lt in H. apply Z.leb_gt. lia.
Qed.

Lemma addDays_addDays (d : Date) (a b : Z) :
  addDays (addDays d a) b = addDays d (a + b).
Proof.
  destruct d; simpl; [|reflexivity]. f_equal. lia.
Qed.

(** The weekday loop of a week: it stops at the first date after [end_],
    and these are exactly the later days of the week. *)
Lemma weekday_loop (emit : Z -> list Event) (weekStart end_ : Date)
  (body : Z -> list Event -> step (list Event)) :
  (forall day s,
      body day s = if gt (addDays weekStart day) end_ then Break s
                   else Continue (s ++ emit day)%list) ->
  forall s,
    forLoopBrk 0 5 body s
    = (s ++ flat_map emit (daysInRange weekStart end_))%list.
Proof.
  intros Hbody s. unfold forLoopBrk, daysInRange.
  rewrite (LoopFacts.iterateBrk_append emit _ body Hbody).
  rewrite LoopFacts.untilBreak_filter.
  - reflexivity.
  - intros i j. apply gt_addDays_mono.
Qed.

End DatesFacts.

Module PolicyAFacts.
Import PolicyA DescribedA.

Lemma weekdayBodyA_eq (params : Params) (week day : Z) (s : list Event) :
  let people := rotationOrder params in
  let weekStart := addDays (startDate params) (week * 7) in
  weekdayBody params (endDate params) weekStart
    (hospitalForWeek people week) (odcForWeek people week)
    (offForWeek people week) (isLaneWeek params week) day s
  = if gt (addDays weekStart day) (endDate params) then Break s
    else Continue (s ++ dayEvents params week (addDays weekStart day))%list.
Proof.
  cbv zeta. unfold weekdayBody, dayEvents, atClock, push.
  destruct (gt _ _); [reflexivity|].
  destruct (isLaneWeek params week), (showOff params),
    (doubleOffOnLaneWeeks params); cbn [andb app];
    rewrite <- ?app_assoc; reflexivity.
Qed.

Lemma weekday_loopA_eq (params : Params) (week : Z) (s : list Event) :
  let people := rotationOrder params in
  let weekStart := addDays (startDate params) (week * 7) in
  forLoopBrk 0 5
    (weekdayBody params (endDate params) weekStart
       (hospitalForWeek people week) (odcForWeek people week)
       (offForWeek people week) (isLaneWeek params week)) s
  = (s ++ flat_map (fun day => dayEvents params week (addDays weekStart day))
            (daysInRange weekStart (endDate params)))%list.
Proof.
  cbv zeta. apply DatesFacts.weekday_loop. intros day s'.
  apply weekdayBodyA_eq.
Qed.

Lemma weekendBlockA_eq (params : Params) (week : Z) (s : list Event) :
  weekendBlock params (endDate params) (addDays (startDate params) (week * 7))
    (hospitalForWeek (rotationOrder params) week) week s
  = (s ++ weekendEvents params week)%list.
Proof.
  unfold weekendBlock, weekendEvents, atClock, push.
  destruct (le _ _); [reflexivity | now rewrite app_nil_r].
Qed.

Lemma weekBodyA_eq (params : Params) (week : Z) (s : list Event) :
  weekBody params (startDate params) (endDate params) (rotationOrder params)
    week s
  = (s ++ weekEvents params week)%list.
Proof.
  unfold weekBody. rewrite weekday_loopA_eq, weekendBlockA_eq.
  unfold weekEvents. now rewrite app_assoc.
Qed.

Lemma shiftsBeforeSortA_eq (params : Params) :
  shiftsBeforeSort params
  = flat_map (weekEvents params) (weeks (weeksTotal params)).
Proof.
  unfold shiftsBeforeSort, forLoop, weeks.
  rewrite (LoopFacts.iterate_append (weekEvents params)).
  - rewrite Z.sub_0_r. reflexivity.
  - intros week s. apply weekBodyA_eq.
Qed.

End PolicyAFacts.

Module PolicyBFacts.
Import PolicyB DescribedB.

Lemma weekdayBodyB_eq (params : Params) (week day : Z) (s : list Event) :
  let weekStart := addDays (startDate params) (week * 7) in
  weekdayBody params (endDate params) weekStart (personForWeek params week)
    week day s
  = if gt (addDays weekStart day) (endDate params) then Break s
    else Continue (s ++ dayEvents params week (addDays weekStart day))%list.
Proof.
  cbv zeta. unfold weekdayBody, dayEvents, atClock, push.
  destruct (gt _ _); [reflexivity|].
  destruct (isLaneWeek params week), (hideODCWhenLane params);
    cbn [andb negb app]; rewrite <- ?app_assoc; reflexivity.
Qed.

Lemma weekday_loopB_eq (params : Params) (week : Z) (s : list Event) :
  let weekStart := addDays (startDate params) (week * 7) in
  forLoopBrk 0 5
    (weekdayBody params (endDate params) weekStart
       (personForWeek params week) week) s
  = (s ++ flat_map (fun day => dayEvents params week (addDays weekStart day))
            (daysInRange weekStart (endDate params)))%list.
Proof.
  cbv zeta. apply DatesFacts.weekday_loop. intros day s'.
  apply weekdayBodyB_eq.
Qed.

Lemma weekendBlockB_eq (params : Params) (week : Z) (s : list Event) :
  weekendBlock params (endDate params) (addDays (startDate params) (week * 7))
    (personForWeek params week) week s
  = (s ++ weekendEvents params week)%list.
Proof.
  unfold weekendBlock, weekendEvents, atClock, push.
  destruct (le _ _); [reflexivity | now rewrite app_nil_r].
Qed.

Lemma weekBodyB_eq (params : Params) (week : Z) (s : list Event) :
  weekBody params (startDate params) (endDate params) week s
  = (s ++ weekEvents params week)%list.
Proof.
  unfold weekBody. rewrite weekday_loopB_eq, weekendBlockB_eq.
  unfold weekEvents. now rewrite app_assoc.
Qed.

Lemma shiftsBeforeSortB_eq (params : Params) :
  shiftsBeforeSort params
  = flat_map (weekEvents params) (weeks (weeksTotal params)).
Proof.
  unfold shiftsBeforeSort, forLoop, weeks.
  rewrite (LoopFacts.iterate_append (weekEvents params)).
  - rewrite Z.sub_0_r. reflexivity.
  - intros week s. apply weekBodyB_eq.
Qed.

End PolicyBFacts.

(* ================================================================== *)
(** * The final sort                                                  *)
(* ================================================================== *)

Module SortFacts.

Lemma insert_perm (x : Event) (l : list Event) :
  Permutation (x :: l) (insert byStart x l).
Proof.
  induction l as [|y l IH]; simpl.
  - reflexivity.
  - destruct (positive (byStart x y)).
    + rewrite perm_swap. now apply perm_skip.
    + reflexivity.
Qed.

Lemma sort_perm (l : list Event) : Permutation l (sort byStart l).
Proof.
  induction l as [|x l IH]; simpl.
  - constructor.
  - rewrite <- insert_perm. now apply perm_skip.
Qed.

Lemma positive_byStart (x y : Event) (tx ty : Z) :
  startsAt x tx -> startsAt y ty ->
  positive (byStart x y) = (ty <? tx).
Proof.
  unfold startsAt, byStart. intros -> ->. simpl.
  destruct (Z.ltb_spec 0 (tx - ty)), (Z.ltb_spec ty tx); lia || reflexivity.
Qed.

Lemma insert_sorted (x : Event) (l : list Event) :
  validStart x -> Forall validStart l ->
  StronglySorted notAfter l ->
  StronglySorted notAfter (insert byStart x l).
Proof.
  intros [tx Hx] Hvalid Hsorted.
  induction Hsorted as [|y l Hsorted IH Hy]; simpl.
  - repeat constructor.
  - inversion Hvalid as [|? ? [ty Hty] Hvalid']; subst.
    rewrite (positive_byStart x y tx ty Hx Hty).
    destruct (Z.ltb_spec ty tx) as [Hlt|Hge].
    + constructor; [apply IH, Hvalid'|].
      apply (Permutation_Forall (insert_perm x l)).
      constructor; [|exact Hy].
      exists ty, tx. repeat split; trivial; lia.
    + constructor; [now constructor|].
      constructor.
      * exists tx, ty. repeat split; trivial.
      * revert Hy. apply Forall_impl. intros z (ty' & tz & Hy' & Hz & Hle).
        unfold startsAt in *. rewrite Hty in Hy'. injection Hy' as <-.
        exists tx, tz. repeat split; trivial; lia.
Qed.

Lemma sort_sorted (l : list Event) :
  Forall validStart l -> StronglySorted notAfter (sort byStart l).
Proof.
  induction 1 as [|x l Hx Hl IH]; simpl.
  - constructor.
  - apply insert_sorted; trivial.
    apply (Permutation_Forall (sort_perm l)), Hl.
Qed.

(** Stability: inserting [x] in front of a sorted list leaves the events
    that start at any one time in the order they had. *)
Lemma insert_stable (t : Z) (x : Event) (l : list Event) :
  validStart x -> Forall validStart l ->
  StronglySorted notAfter l ->
  filter (startingAt t) (insert byStart x l)
  = filter (startingAt t) (x :: l).
Proof.
  intros [tx Hx] Hvalid Hsorted.
  induction Hsorted as [|y l Hsorted IH Hy]; simpl.
  - reflexivity.
  - inversion Hvalid as [|? ? [ty Hty] Hvalid']; subst.
    rewrite (positive_byStart x y tx ty Hx Hty).
    destruct (Z.ltb_spec ty tx) as [Hlt|Hge]; [|reflexivity].
    cbn [filter]. rewrite (IH Hvalid'). cbn [filter].
    assert (Ex : startingAt t x = (tx =? t)) by (unfold startingAt; now rewrite Hx).
    assert (Ey : startingAt t y = (ty =? t)) by (unfold startingAt; now rewrite Hty).
    rewrite Ex, Ey.
    destruct (Z.eqb_spec ty t), (Z.eqb_spec tx t); trivial; lia.
Qed.

Lemma sort_stable (t : Z) (l : list Event) :
  Forall validStart l ->
  filter (startingAt t) (sort byStart l) = filter (startingAt t) l.
Proof.
  induction 1 as [|x l Hx Hl IH]; simpl.
  - reflexivity.
  - rewrite insert_stable; trivial.
    + cbn [filter]. now rewrite IH.
    + apply (Permutation_Forall (sort_perm l)), Hl.
    + now apply sort_sorted.
Qed.

End SortFacts.

(* ================================================================== *)
(** * Rotation                                                        *)
(* ================================================================== *)

Module Rotation.
Import PolicyA.

Lemma index_rem (people : list string) (v : Z) :
  (0 < List.length people)%nat -> 0 <= v ->
  index people (rem (Int v) (n people))
  = nth_error people (Z.to_nat (v mod Z.of_nat (List.length people))).
Proof.
  intros Hlen Hv. unfold index, rem, n.
  destruct (Z.eqb_spec (Z.of_nat (List.length people)) 0) as [E|_]; [lia|].
  rewrite Z.rem_mod_nonneg by lia.
  destruct (Z.ltb_spec (v mod Z.of_nat (List.length people)) 0) as [H|_].
  - pose proof (Z.mod_pos_bound v (Z.of_nat (List.length people))). lia.
  - reflexivity.
Qed.

Lemma slot_defined (people : list string) (v : Z) :
  (0 < List.length people)%nat ->
  exists who,
    nth_error people (Z.to_nat (v mod Z.of_nat (List.length people)))
    = Some who.
Proof.
  intros Hlen.
  destruct (nth_error people _) as [who|] eqn:E; [now exists who|].
  apply nth_error_None in E.
  assert (B : 0 <= v mod Z.of_nat (List.length people) < Z.of_nat (List.length people))
    by (apply Z.mod_pos_bound; lia).
  exfalso. lia.
Qed.

(** C1. Under Policy A, for a rotation order of [n >= 3] people and a week
    [w >= 0], the hospital person is [order[w mod n]], the ODC person is
    [order[(w+1) mod n]] and the OFF person is [order[(w+2) mod n]]; the
    three are defined, and from one week to the next each role moves to
    the next position of the order, cyclically. *)
Theorem policyA_roles (people : list string) (w : Z) :
  (3 <= List.length people)%nat -> 0 <= w ->
  let n := Z.of_nat (List.length people) in
  let order i := nth_error people (Z.to_nat i) in
  hospitalForWeek people w = order (w mod n) /\
  odcForWeek people w = order ((w + 1) mod n) /\
  offForWeek people w = order ((w + 2) mod n) /\
  (exists a b c,
      hospitalForWeek people w = Some a /\
      odcForWeek people w = Some b /\
      offForWeek people w = Some c) /\
  hospitalForWeek people (w + 1) = order ((w mod n + 1) mod n) /\
  odcForWeek people (w + 1) = order (((w + 1) mod n + 1) mod n) /\
  offForWeek people (w + 1) = order (((w + 2) mod n + 1) mod n).
Proof.
  intros Hlen Hw n0 order.
  assert (Hpos : (0 < List.length people)%nat) by lia.
  assert (Hh : forall v, 0 <= v -> hospitalForWeek people v = order (v mod n0)).
  { intros v Hv. apply index_rem; trivial. }
  assert (Ho : forall v, 0 <= v -> odcForWeek people v = order ((v + 1) mod n0)).
  { intros v Hv. unfold odcForWeek, add. apply index_rem; trivial; lia. }
  assert (Hf : forall v, 0 <= v -> offForWeek people v = order ((v + 2) mod n0)).
  { intros v Hv. unfold offForWeek, add. apply index_rem; trivial; lia. }
  rewrite !Hh, !Ho, !Hf by lia.
  repeat split.
  - destruct (slot_defined people w Hpos) as [a Ha].
    destruct (slot_defined people (w + 1) Hpos) as [b Hb].
    destruct (slot_defined people (w + 2) Hpos) as [c Hc].
    exists a, b, c. auto.
  - rewrite Z.add_mod_idemp_l by lia. reflexivity.
  - rewrite Z.add_mod_idemp_l by lia. reflexivity.
  - rewrite Z.add_mod_idemp_l by lia.
    replace (w + 2 + 1) with (w + 1 + 2) by lia. reflexivity.
Qed.

Lemma policyA_roles_witness :
  hospitalForWeek ["A"; "B"; "C"; "D"]%string 6 = Some "C"%string /\
  odcForWeek ["A"; "B"; "C"; "D"]%string 6 = Some "D"%string /\
  offForWeek ["A"; "B"; "C"; "D"]%string 6 = Some "A"%string.
Proof.
  destruct (policyA_roles ["A"; "B"; "C"; "D"]%string 6)
    as (Hh & Ho & Hf & _).
  - simpl. lia.
  - lia.
  - rewrite Hh, Ho, Hf. repeat split.
Defined.

End Rotation.

(* ================================================================== *)
(** * Validation of the rotation order                                *)
(* ================================================================== *)

Module Validation.

(** C2, as stated, fails for the single-role generator: it has no check of
    the rotation order.  With an empty order over one day (two weekdays in
    range, in a lane week) it returns a schedule whose HOSPITAL and ODC
    events are for the person [undefined]. *)
Lemma policyB_returns_on_empty_order :
  PolicyB.rotationOrder nobodyB = [] /\
  PolicyB.generateSchedule nobodyB
  = Return
      [ buildEvent "HOSPITAL undefined"
          (Time (19723 * msPerDay + 7 * msPerHour))
          (Time (19723 * msPerDay + 17 * msPerHour));
        buildEvent "ODC Lane"
          (Time (19723 * msPerDay + 8 * msPerHour))
          (Time (19723 * msPerDay + 12 * msPerHour));
        buildEvent "ODC undefined"
          (Time (19723 * msPerDay + 17 * msPerHour))
          (Time (19723 * msPerDay + 23 * msPerHour));
        buildEvent "HOSPITAL undefined"
          (Time (19724 * msPerDay + 7 * msPerHour))
          (Time (19724 * msPerDay + 17 * msPerHour));
        buildEvent "ODC Lane"
          (Time (19724 * msPerDay + 8 * msPerHour))
          (Time (19724 * msPerDay + 12 * msPerHour));
        buildEvent "ODC undefined"
          (Time (19724 * msPerDay + 17 * msPerHour))
          (Time (19724 * msPerDay + 23 * msPerHour)) ].
Proof.
  split; vm_compute; reflexivity.
Qed.

(** C2, amended. The three-role generator throws, with the message of the
    source and without a schedule, exactly when the rotation order has
    fewer than 3 people.  The single-role generator never throws, however
    short the order is. *)
Theorem rotation_order_check (pa : PolicyA.Params) (pb : PolicyB.Params) :
  ((List.length (PolicyA.rotationOrder pa) < 3)%nat ->
   PolicyA.generateSchedule pa
   = Throw
       "Rotation order must include at least 3 people (Hospital / ODC / OFF).")
  /\ ((3 <= List.length (PolicyA.rotationOrder pa))%nat ->
      PolicyA.generateSchedule pa
      = Return (sort byStart (PolicyA.shiftsBeforeSort pa)))
  /\ PolicyB.generateSchedule pb
     = Return (sort byStart (PolicyB.shiftsBeforeSort pb)).
Proof.
  unfold PolicyA.generateSchedule, PolicyB.generateSchedule.
  repeat split.
  - intros H. apply Nat.ltb_lt in H. now rewrite H.
  - intros H. apply Nat.ltb_ge in H. now rewrite H.
Qed.

(** Two people: the call throws.  Three people: it returns. *)
Lemma rotation_order_check_witness :
  PolicyA.generateSchedule
    {| PolicyA.startDate := monday; PolicyA.years := 1;
       PolicyA.rotationOrder := ["A"; "B"]%string;
       PolicyA.hospStartTime := "07:00"; PolicyA.hospEndTime := "17:00";
       PolicyA.odcStartTime := "17:00"; PolicyA.odcEndTime := "23:00";
       PolicyA.lanePatternWeeks := Int 4;
       PolicyA.laneStartTime := "08:00"; PolicyA.laneEndTime := "12:00";
       PolicyA.showOff := true; PolicyA.doubleOffOnLaneWeeks := true;
       PolicyA.weekendStartTime := "06:00";
       PolicyA.weekendEndTime := "23:59";
       PolicyA.laneWeekendEvery := Int 2 |}
  = Throw
      "Rotation order must include at least 3 people (Hospital / ODC / OFF)."
  /\ PolicyA.generateSchedule sampleA
     = Return (sort byStart (PolicyA.shiftsBeforeSort sampleA)).
Proof.
  split.
  - apply (rotation_order_check _ sampleB). simpl. lia.
  - apply (rotation_order_check sampleA sampleB). simpl. lia.
Defined.

End Validation.

(* ================================================================== *)
(** * The events of a week                                            *)
(* ================================================================== *)

Module WeekEvents.


(** C4. In both generators the schedule before the sort is made of one
    turn of the week loop per week index below [weeksTotal]; a turn pushes
    the weekday events and then, when [sat = weekStart + 5] is not after
    the end, exactly one weekend event, and when [sat] is after the end no
    weekend event.  The event runs from the weekend start time on Saturday
    to the weekend end time on Sunday; its title is ["Weekend Lane"] in a
    lane weekend and ["Weekend person"] otherwise, with the hospital
    person (three-role) or the duty person (single-role) of the week. *)
Theorem weekend_event (pa : PolicyA.Params) (pb : PolicyB.Params)
  (week : Z) (shifts : list Event) :
  (let weekStart := addDays (PolicyA.startDate pa) (week * 7) in
   let sat := addDays weekStart 5 in
   let sun := addDays weekStart 6 in
   let end_ := PolicyA.endDate pa in
   let people := PolicyA.rotationOrder pa in
   let hospPerson := PolicyA.hospitalForWeek people week in
   let weekend :=
     buildEvent
       (if PolicyA.isLaneWeekend pa week then "Weekend Lane"
        else "Weekend " ++ show hospPerson)%string
       (atClock sat (PolicyA.weekendStartTime pa))
       (atClock sun (PolicyA.weekendEndTime pa)) in
   let afterWeekdays :=
     forLoopBrk 0 5
       (PolicyA.weekdayBody pa end_ weekStart hospPerson
          (PolicyA.odcForWeek people week) (PolicyA.offForWeek people week)
          (PolicyA.isLaneWeek pa week)) shifts in
   let afterWeek :=
     PolicyA.weekBody pa (PolicyA.startDate pa) end_ people week shifts in
   (le sat end_ = true -> afterWeek = afterWeekdays ++ [weekend])%list /\
   (gt sat end_ = true -> afterWeek = afterWeekdays) /\
   PolicyA.shiftsBeforeSort pa
   = flat_map
       (fun w => PolicyA.weekBody pa (PolicyA.startDate pa) end_ people w [])
       (weeks (PolicyA.weeksTotal pa)))
  /\
  (let weekStart := addDays (PolicyB.startDate pb) (week * 7) in
   let sat := addDays weekStart 5 in
   let sun := addDays weekStart 6 in
   let end_ := PolicyB.endDate pb in
   let person := PolicyB.personForWeek pb week in
   let weekend :=
     buildEvent
       (if PolicyB.isLaneWeekend pb week then "Weekend Lane"
        else "Weekend " ++ show person)%string
       (atClock sat (PolicyB.weekendStartTime pb))
       (atClock sun (PolicyB.weekendEndTime pb)) in
   let afterWeekdays :=
     forLoopBrk 0 5 (PolicyB.weekdayBody pb end_ weekStart person week)
       shifts in
   let afterWeek :=
     PolicyB.weekBody pb (PolicyB.startDate pb) end_ week shifts in
   (le sat end_ = true -> afterWeek = afterWeekdays ++ [weekend])%list /\
   (gt sat end_ = true -> afterWeek = afterWeekdays) /\
   PolicyB.shiftsBeforeSort pb
   = flat_map (fun w => PolicyB.weekBody pb (PolicyB.startDate pb) end_ w [])
       (weeks (PolicyB.weeksTotal pb))).
Proof.
  split; cbv zeta.
  - split; [|split].
    + intros H. unfold PolicyA.weekBody, PolicyA.weekendBlock, push, atClock.
      now rewrite H.
    + intros H. apply DatesFacts.gt_not_le in H.
      unfold PolicyA.weekBody, PolicyA.weekendBlock. now rewrite H.
    + rewrite PolicyAFacts.shiftsBeforeSortA_eq. apply flat_map_ext.
      intros w. now rewrite PolicyAFacts.weekBodyA_eq.
  - split; [|split].
    + intros H. unfold PolicyB.weekBody, PolicyB.weekendBlock, push, atClock.
      now rewrite H.
    + intros H. apply DatesFacts.gt_not_le in H.
      unfold PolicyB.weekBody, PolicyB.weekendBlock. now rewrite H.
    + rewrite PolicyBFacts.shiftsBeforeSortB_eq. apply flat_map_ext.
      intros w. now rewrite PolicyBFacts.weekBodyB_eq.
Qed.

(** Week 0 of the samples has its Saturday in range and ends with one
    weekend event; week 1 has not, and ends with the weekday events. *)
Lemma weekend_event_witness :
  (le (addDays (addDays monday (0 * 7)) 5) (PolicyA.endDate sampleA) = true /\
   map title
     (PolicyA.weekBody sampleA monday (PolicyA.endDate sampleA)
        ["A"; "B"; "C"]%string 0 [])
   = (map title
        (forLoopBrk 0 5
           (PolicyA.weekdayBody sampleA (PolicyA.endDate sampleA)
              (addDays monday (0 * 7)) (Some "A"%string) (Some "B"%string)
              (Some "C"%string) true)
           [])
      ++ ["Weekend Lane"%string])%list)
  /\
  (gt (addDays (addDays monday (1 * 7)) 5) (PolicyB.endDate sampleB) = true /\
   PolicyB.weekBody sampleB monday (PolicyB.endDate sampleB) 1 []
   = forLoopBrk 0 5
       (PolicyB.weekdayBody sampleB (PolicyB.endDate sampleB)
          (addDays monday (1 * 7)) (Some "B"%string) 1) []).
Proof.
  split; (split; [reflexivity|]).
  - destruct (weekend_event sampleA sampleB 0 [])
      as [(H & _ & _) _].
    cbv zeta in H.
    change (PolicyA.startDate sampleA) with monday in H.
    change (PolicyA.rotationOrder sampleA) with ["A"; "B"; "C"]%string in H.
    rewrite H by reflexivity.
    rewrite map_app. reflexivity.
  - destruct (weekend_event sampleA sampleB 1 [])
      as [_ (_ & H & _)].
    cbv zeta in H. apply H. reflexivity.
Defined.

End WeekEvents.

(* ================================================================== *)
(** * The schedule is sorted                                          *)
(* ================================================================== *)

Module SortedSchedule.
Import SortFacts.

Lemma atClock_valid (t : string) (x : Z) :
  validClock t -> exists u, atClock (Time x) t = Time u.
Proof.
  intros (hh & mm & E). unfold atClock. rewrite E. simpl. eauto.
Qed.

Lemma event_valid (name : string) (t : string) (x : Z) (e : Date) :
  validClock t -> validStart (buildEvent name (atClock (Time x) t) e).
Proof.
  intros H. destruct (atClock_valid t x H) as [u Hu].
  exists u. unfold startsAt. simpl. exact Hu.
Qed.

Lemma shiftsA_valid (p : PolicyA.Params) :
  validA p -> Forall validStart (PolicyA.shiftsBeforeSort p).
Proof.
  intros ([t Ht] & Hh & Ho & Hl & Hw).
  rewrite PolicyAFacts.shiftsBeforeSortA_eq.
  apply Forall_flat_map, Forall_forall. intros week _.
  unfold DescribedA.weekEvents. rewrite Ht. apply Forall_app. split.
  - apply Forall_flat_map, Forall_forall. intros day _.
    unfold DescribedA.dayEvents. simpl addDays.
    destruct (PolicyA.isLaneWeek p week), (PolicyA.showOff p),
      (PolicyA.doubleOffOnLaneWeeks p); cbn [andb app];
      repeat constructor; now apply event_valid.
  - unfold DescribedA.weekendEvents. rewrite Ht. simpl addDays.
    destruct (le _ _); repeat constructor. now apply event_valid.
Qed.

Lemma shiftsB_valid (p : PolicyB.Params) :
  validB p -> Forall validStart (PolicyB.shiftsBeforeSort p).
Proof.
  intros ([t Ht] & Hh & Ho & Hl & Hw).
  rewrite PolicyBFacts.shiftsBeforeSortB_eq.
  apply Forall_flat_map, Forall_forall. intros week _.
  unfold DescribedB.weekEvents. rewrite Ht. apply Forall_app. split.
  - apply Forall_flat_map, Forall_forall. intros day _.
    unfold DescribedB.dayEvents. simpl addDays.
    destruct (PolicyB.isLaneWeek p week), (PolicyB.hideODCWhenLane p);
      cbn [andb app]; repeat constructor; now apply event_valid.
  - unfold DescribedB.weekendEvents. rewrite Ht. simpl addDays.
    destruct (le _ _); repeat constructor. now apply event_valid.
Qed.

(** C5. For a valid parameter set (at least three people for the
    three-role generator, a valid start date and readable window start
    times), the generator returns a schedule in which no event starts
    after a later one; the schedule is a rearrangement of the events in
    generation order, and the events that start at the same time keep
    their generation order. *)
Theorem schedule_sorted_stable (pa : PolicyA.Params) (pb : PolicyB.Params) :
  ((3 <= List.length (PolicyA.rotationOrder pa))%nat -> validA pa ->
   exists events,
     PolicyA.generateSchedule pa = Return events /\
     StronglySorted notAfter events /\
     Permutation (PolicyA.shiftsBeforeSort pa) events /\
     forall t, filter (startingAt t) events
               = filter (startingAt t) (PolicyA.shiftsBeforeSort pa))
  /\
  (validB pb ->
   exists events,
     PolicyB.generateSchedule pb = Return events /\
     StronglySorted notAfter events /\
     Permutation (PolicyB.shiftsBeforeSort pb) events /\
     forall t, filter (startingAt t) events
               = filter (startingAt t) (PolicyB.shiftsBeforeSort pb)).
Proof.
  split.
  - intros Hlen Hvalid. apply shiftsA_valid in Hvalid.
    exists (sort byStart (PolicyA.shiftsBeforeSort pa)).
    unfold PolicyA.generateSchedule.
    apply Nat.ltb_ge in Hlen. rewrite Hlen.
    repeat split.
    + now apply sort_sorted.
    + apply sort_perm.
    + intros t. now apply sort_stable.
  - intros Hvalid. apply shiftsB_valid in Hvalid.
    exists (sort byStart (PolicyB.shiftsBeforeSort pb)).
    repeat split.
    + now apply sort_sorted.
    + apply sort_perm.
    + intros t. now apply sort_stable.
Qed.

Lemma validClock_digits (t : string) (hh mm : Z) :
  parseTime t = {| h := Int hh; m := Int mm |} -> validClock t.
Proof. intros H. now exists hh, mm. Qed.

Lemma sampleA_valid : validA sampleA.
Proof.
  split; [now exists (19723 * msPerDay)|].
  repeat split; eapply validClock_digits; vm_compute; reflexivity.
Defined.

Lemma sampleB_valid : validB sampleB.
Proof.
  split; [now exists (19723 * msPerDay)|].
  repeat split; eapply validClock_digits; vm_compute; reflexivity.
Defined.

Lemma schedule_sorted_stable_witness :
  (exists events,
     PolicyA.generateSchedule sampleA = Return events /\
     StronglySorted notAfter events /\
     Permutation (PolicyA.shiftsBeforeSort sampleA) events /\
     forall t, filter (startingAt t) events
               = filter (startingAt t) (PolicyA.shiftsBeforeSort sampleA))
  /\
  (exists events,
     PolicyB.generateSchedule sampleB = Return events /\
     StronglySorted notAfter events /\
     Permutation (PolicyB.shiftsBeforeSort sampleB) events /\
     forall t, filter (startingAt t) events
               = filter (startingAt t) (PolicyB.shiftsBeforeSort sampleB)).
Proof.
  destruct (schedule_sorted_stable sampleA sampleB) as [HA HB].
  split.
  - apply HA; [simpl; lia | exact sampleA_valid].
  - apply HB. exact sampleB_valid.
Defined.

End SortedSchedule.

(* ================================================================== *)
(** * Lane weeks                                                      *)
(* ================================================================== *)

Module LaneWeeks.



End LaneWeeks.

(* ================================================================== *)
(** * The span of the schedule and the early exit                     *)
(* ================================================================== *)

Module Span.

(** ** Rounding to a double *)

Lemma nearestEven_comp (s s' : Q) : (s == s')%Q -> nearestEven s = nearestEven s'.
Proof.
  intros H. unfold nearestEven.
  rewrite (Qfloor_comp _ _ H).
  assert (E : (s - inject_Z (Qfloor s') == s' - inject_Z (Qfloor s'))%Q)
    by (rewrite H; reflexivity).
  rewrite (Qcompare_comp _ _ E _ _ (Qeq_refl _)). reflexivity.
Qed.

Lemma nearestEven_bounds (s : Q) :
  Qfloor s <= nearestEven s <= Qfloor s + 1.
Proof.
  unfold nearestEven.
  destruct (Qcompare _ _); [destruct (Z.even _)| |]; lia.
Qed.

Lemma nearestEven_integer (j : Z) : nearestEven (inject_Z j) = j.
Proof.
  unfold nearestEven. rewrite Qfloor_Z.
  assert (E : (inject_Z j - inject_Z j ?= 1 # 2)%Q = Lt).
  { apply Qlt_alt. setoid_replace (inject_Z j - inject_Z j)%Q with 0%Q by ring.
    reflexivity. }
  now rewrite E.
Qed.

Lemma nearestEven_ge (j : Z) (s : Q) :
  (inject_Z j <= s)%Q -> j <= nearestEven s.
Proof.
  intros H. apply Qfloor_resp_le in H. rewrite Qfloor_Z in H.
  pose proof (nearestEven_bounds s). lia.
Qed.

Lemma nearestEven_le (j : Z) (s : Q) :
  (s <= inject_Z j)%Q -> nearestEven s <= j.
Proof.
  intros H. destruct (Qlt_le_dec s (inject_Z j)) as [Hlt|Hge].
  - assert (Qfloor s < j).
    { rewrite Zlt_Qlt. eapply Qle_lt_trans; [apply Qfloor_le|exact Hlt]. }
    pose proof (nearestEven_bounds s). lia.
  - rewrite (nearestEven_comp s (inject_Z j)) by (now apply Qle_antisym).
    rewrite nearestEven_integer. lia.
Qed.

Lemma pow2_pos (k : Z) : (0 < pow2 k)%Q.
Proof.
  unfold pow2. destruct (k <? 0) eqn:E; [reflexivity|].
  apply Z.ltb_ge in E. rewrite <- (Zlt_Qlt 0). now apply Z.pow_pos_nonneg.
Qed.

Lemma pow2_inv (k : Z) : k <= 0 -> (/ pow2 k == inject_Z (2 ^ (- k)))%Q.
Proof.
  intros H. unfold pow2. destruct (k <? 0) eqn:E.
  - apply Z.ltb_lt in E.
    assert (0 < 2 ^ (- k)) by (apply Z.pow_pos_nonneg; lia).
    destruct (2 ^ (- k)) as [|p|p] eqn:Ep; try lia.
    unfold Qinv, Qeq, inject_Z. simpl. lia.
  - apply Z.ltb_ge in E. assert (k = 0) by lia. subst. reflexivity.
Qed.

Lemma pow2_mono (j k : Z) : j <= k -> (pow2 j <= pow2 k)%Q.
Proof.
  intros H. unfold pow2.
  destruct (j <? 0) eqn:Ej, (k <? 0) eqn:Ek;
    try apply Z.ltb_lt in Ej; try apply Z.ltb_ge in Ej;
    try apply Z.ltb_lt in Ek; try apply Z.ltb_ge in Ek.
  - assert (0 < 2 ^ (- j)) by (apply Z.pow_pos_nonneg; lia).
    assert (0 < 2 ^ (- k)) by (apply Z.pow_pos_nonneg; lia).
    assert (2 ^ (- k) <= 2 ^ (- j)) by (apply Z.pow_le_mono_r; lia).
    unfold Qle. simpl. lia.
  - assert (0 < 2 ^ (- j)) by (apply Z.pow_pos_nonneg; lia).
    assert (0 < 2 ^ k) by (apply Z.pow_pos_nonneg; lia).
    unfold Qle. simpl. nia.
  - lia.
  - rewrite <- Zle_Qle. apply Z.pow_le_mono_r; lia.
Qed.

(** A positive rational below [2^b] lies in a binade below [b]. *)
Lemma binade_below (a : Q) (b : Z) :
  0 <= b -> (0 < a)%Q -> (a < inject_Z (2 ^ b))%Q -> binade a < b.
Proof.
  intros Hb Hpos Hlt. unfold binade.
  set (k := Z.log2 (Qnum a) - Z.log2 (Z.pos (Qden a))).
  destruct (Qle_bool (pow2 k) a) eqn:E.
  - apply Qle_bool_iff in E.
    destruct (Z_lt_le_dec k b) as [|Hge]; [assumption|exfalso].
    apply (Qlt_irrefl a). eapply Qlt_le_trans; [exact Hlt|].
    eapply Qle_trans; [|exact E].
    replace (inject_Z (2 ^ b)) with (pow2 b)
      by (unfold pow2; destruct (b <? 0) eqn:F; [apply Z.ltb_lt in F; lia|reflexivity]).
    now apply pow2_mono.
  - assert (k <= b); [|lia]. subst k.
    destruct a as [n d]. unfold Qlt in Hpos, Hlt.
    cbn [Qnum Qden inject_Z] in *.
    assert (Hn : 0 < n) by lia.
    assert (Hle : n <= Z.pos d * 2 ^ b) by lia.
    apply Z.log2_le_mono in Hle.
    rewrite Z.log2_mul_pow2 in Hle by lia. lia.
Qed.

Lemma ulp_pos (x : Q) : (0 < ulp x)%Q.
Proof. apply pow2_pos. Qed.

(** Rounding does not cross a multiple of the spacing. *)
Lemma round_ge_grid (x : Q) (j : Z) :
  (inject_Z j * ulp x <= x)%Q -> (inject_Z j * ulp x <= double x)%Q.
Proof.
  intros H. unfold double. destruct (Qeq_bool x 0) eqn:E.
  - apply Qeq_bool_iff in E. now rewrite <- E.
  - apply Qmult_le_compat_r; [|apply Qlt_le_weak, ulp_pos].
    rewrite <- Zle_Qle. apply nearestEven_ge.
    apply Qle_shift_div_l; [apply ulp_pos|exact H].
Qed.

Lemma round_le_grid (x : Q) (j : Z) :
  (x <= inject_Z j * ulp x)%Q -> (double x <= inject_Z j * ulp x)%Q.
Proof.
  intros H. unfold double. destruct (Qeq_bool x 0) eqn:E.
  - apply Qeq_bool_iff in E. now rewrite <- E.
  - apply Qmult_le_compat_r; [|apply Qlt_le_weak, ulp_pos].
    rewrite <- Zle_Qle. apply nearestEven_le.
    apply Qle_shift_div_r; [apply ulp_pos|exact H].
Qed.

(** Below [2^b], [b <= 53], the spacing is [2^-e] for some [e >= 53 - b]. *)
Lemma ulp_small (x : Q) (b : Z) :
  0 <= b <= 53 -> (Qabs x < inject_Z (2 ^ b))%Q -> ~ (x == 0)%Q ->
  exists e, 53 - b <= e /\ (ulp x * inject_Z (2 ^ e) == 1)%Q.
Proof.
  intros Hb Hlt Hnz.
  assert (Hpos : (0 < Qabs x)%Q).
  { destruct (Qle_lt_or_eq _ _ (Qabs_nonneg x)) as [|E]; [assumption|].
    exfalso. apply Hnz. symmetry in E.
    destruct (Qabs_Qle_condition x 0) as [F _].
    apply Qle_antisym; apply F; rewrite E; apply Qle_refl. }
  pose proof (binade_below (Qabs x) b (proj1 Hb) Hpos Hlt) as Hbin.
  unfold ulp. set (q := Z.max (binade (Qabs x)) (-1022) - 52).
  assert (Hq : q <= b - 53) by lia.
  exists (- q). split; [lia|].
  rewrite <- (pow2_inv q) by lia.
  apply Qmult_inv_r. intros E. pose proof (pow2_pos q) as P.
  rewrite E in P. discriminate.
Qed.

(** Below [2^53] rounding does not cross an integer. *)
Lemma round_ge_int (x : Q) (k : Z) :
  (Qabs x < inject_Z (2 ^ 53))%Q ->
  (inject_Z k <= x)%Q -> (inject_Z k <= double x)%Q.
Proof.
  intros Hlt H. destruct (Qeq_dec x 0) as [E|Hnz].
  - unfold double. apply Qeq_bool_iff in E as E'. rewrite E'. now rewrite <- E.
  - destruct (ulp_small x 53 ltac:(lia) Hlt Hnz) as (e & _ & He).
    assert (Ek : (inject_Z k == inject_Z (k * 2 ^ e) * ulp x)%Q).
    { rewrite inject_Z_mult, <- Qmult_assoc, (Qmult_comm (inject_Z (2 ^ e))), He.
      ring. }
    rewrite Ek. apply round_ge_grid. now rewrite <- Ek.
Qed.

Lemma round_le_int (x : Q) (k : Z) :
  (Qabs x < inject_Z (2 ^ 53))%Q ->
  (x <= inject_Z k)%Q -> (double x <= inject_Z k)%Q.
Proof.
  intros Hlt H. destruct (Qeq_dec x 0) as [E|Hnz].
  - unfold double. apply Qeq_bool_iff in E as E'. rewrite E'. now rewrite <- E.
  - destruct (ulp_small x 53 ltac:(lia) Hlt Hnz) as (e & _ & He).
    assert (Ek : (inject_Z k == inject_Z (k * 2 ^ e) * ulp x)%Q).
    { rewrite inject_Z_mult, <- Qmult_assoc, (Qmult_comm (inject_Z (2 ^ e))), He.
      ring. }
    rewrite Ek. apply round_le_grid. now rewrite <- Ek.
Qed.

(** The floor of a double below [2^53] against the floor of the number it
    rounds: the same, or one more when rounding reached the next integer. *)
Lemma floor_round (x : Q) :
  (Qabs x < inject_Z (2 ^ 53))%Q ->
  Qfloor x <= Qfloor (double x) <= Qfloor x + 1 /\
  (Qfloor (double x) <> Qfloor x ->
   (double x == inject_Z (Qfloor x + 1))%Q).
Proof.
  intros Hlt.
  pose proof (round_ge_int x (Qfloor x) Hlt (Qfloor_le x)) as Hge.
  pose proof (round_le_int x (Qfloor x + 1) Hlt
                (Qlt_le_weak _ _ (Qlt_floor x))) as Hle.
  apply Qfloor_resp_le in Hge as Fge. rewrite Qfloor_Z in Fge.
  apply Qfloor_resp_le in Hle as Fle. rewrite Qfloor_Z in Fle.
  split; [lia|]. intros Hne.
  apply Qle_antisym; [exact Hle|].
  replace (Qfloor x + 1) with (Qfloor (double x)) by lia.
  apply Qfloor_le.
Qed.

(** [Math.floor(a * b)] against the floor of the exact product. *)
Lemma floor_of_product (a b : Q) :
  (Qabs (a * b) < inject_Z (2 ^ 53))%Q ->
  Qfloor (a * b) <= Qfloor (times a b) <= Qfloor (a * b) + 1 /\
  (Qfloor (times a b) <> Qfloor (a * b) ->
   (times a b == inject_Z (Qfloor (times a b)))%Q).
Proof.
  intros Hlt. unfold times.
  destruct (floor_round (a * b) Hlt) as [Hb Hne]. split; [exact Hb|].
  intros H. replace (Qfloor (double (a * b))) with (Qfloor (a * b) + 1) by lia.
  exact (Hne H).
Qed.

(** [double], [times] and [divide] give what the kernel's binary64
    arithmetic gives, on the literals, the products with 365.25 and the
    quotients by 7 of [KernelFloats]. *)
Example agrees_with_kernel_floats :
  KernelFloats.literalsAgree = true /\
  KernelFloats.productsAgree = true /\
  KernelFloats.quotientsAgree = true.
Proof. vm_compute. repeat split. Qed.

(** [Math.ceil(d / 7)] on doubles is the ceiling of the exact quotient. *)
Lemma ceiling_sevenths_double (d : Z) :
  Z.abs d < 2 ^ 52 ->
  Qceiling (divide (inject_Z d) 7) = Qceiling (inject_Z d / 7).
Proof.
  intros Hd. unfold divide. set (x := (inject_Z d / 7)%Q).
  set (c := Qceiling x).
  assert (Hx50 : (Qabs x < inject_Z (2 ^ 50))%Q).
  { apply Qabs_Qlt_condition. subst x.
    unfold Qlt, Qdiv, Qmult, Qinv, Qopp, inject_Z. simpl. lia. }
  assert (Hx53 : (Qabs x < inject_Z (2 ^ 53))%Q).
  { eapply Qlt_le_trans; [exact Hx50|]. rewrite <- Zle_Qle. lia. }
  assert (Hup : Qceiling (double x) <= c).
  { pose proof (round_le_int x c Hx53 (Qle_ceiling x)) as H.
    apply Qceiling_resp_le in H. now rewrite Qceiling_Z in H. }
  assert (Hlo : c <= Qceiling (double x)); [|lia].
  assert (Hc : 7 * (c - 1) < d).
  { pose proof (Qceiling_lt x) as H. fold c in H. subst x.
    unfold Qlt, Qdiv, Qmult, Qinv, inject_Z in H. simpl in H. lia. }
  assert (Hlt : (inject_Z (c - 1) < double x)%Q).
  { destruct (Qeq_dec x 0) as [E|Hnz].
    - unfold double. apply Qeq_bool_iff in E as E'. rewrite E'.
      rewrite <- E. apply Qceiling_lt.
    - destruct (ulp_small x 50 ltac:(lia) Hx50 Hnz) as (e & He3 & He).
      assert (H8 : 2 ^ 3 <= 2 ^ e) by (apply Z.pow_le_mono_r; lia).
      assert (Hu : (ulp x == / inject_Z (2 ^ e))%Q).
      { apply (Qmult_inj_r _ _ (inject_Z (2 ^ e))).
        - intros F. unfold Qeq in F. simpl in F. lia.
        - rewrite He. rewrite Qmult_comm. symmetry. apply Qmult_inv_r.
          intros F. unfold Qeq in F. simpl in F. lia. }
      apply Qlt_le_trans with (inject_Z ((c - 1) * 2 ^ e + 1) * ulp x)%Q.
      + rewrite Hu. destruct (2 ^ e) as [|p|p] eqn:Ep; try lia.
        unfold Qlt, Qmult, Qinv, inject_Z. simpl. nia.
      + apply round_ge_grid. rewrite Hu. subst x.
        destruct (2 ^ e) as [|p|p] eqn:Ep; try lia.
        unfold Qle, Qdiv, Qmult, Qinv, inject_Z. simpl. nia. }
  assert (c - 1 < Qceiling (double x)); [|lia].
  rewrite Zlt_Qlt. eapply Qlt_le_trans; [exact Hlt|apply Qle_ceiling].
Qed.

(** ** The span *)

Lemma ceiling_sevenths (d : Z) :
  let w := Qceiling (inject_Z d / 7) in
  7 * (w - 1) < d <= 7 * w.
Proof.
  cbv zeta.
  pose proof (Qle_ceiling (inject_Z d / 7)) as Hle.
  pose proof (Qceiling_lt (inject_Z d / 7)) as Hlt.
  set (w := Qceiling (inject_Z d / 7)) in *.
  unfold Qle, Qlt, Qdiv, Qmult, Qinv, inject_Z in Hle, Hlt.
  simpl in Hle, Hlt. lia.
Qed.

Lemma endDate_eq (start : Date) (days : Z) :
  addDays start days
  = match start with
    | Time t => Time (t + days * msPerDay)
    | InvalidDate => InvalidDate
    end.
Proof. destruct start; reflexivity. Qed.

(** Once a date of a week is after the end, every weekday of every later
    week is. *)
Lemma later_weeks_out (start end_ : Date) (week day later d : Z) :
  0 <= day < 5 -> week < later -> 0 <= d ->
  gt (addDays (addDays start (week * 7)) day) end_ = true ->
  gt (addDays (addDays start (later * 7)) d) end_ = true.
Proof.
  destruct start as [t|], end_ as [e|]; simpl; try discriminate.
  unfold msPerDay. intros Hday Hlater Hd H.
  apply Z.ltb_lt in H. apply Z.ltb_lt. lia.
Qed.

Lemma daysInRange_nil (weekStart end_ : Date) :
  (forall d, 0 <= d -> gt (addDays weekStart d) end_ = true) ->
  daysInRange weekStart end_ = [].
Proof.
  intros H. unfold daysInRange, weekdays. simpl.
  rewrite !H by lia. reflexivity.
Qed.

Lemma cut_at (body : Z -> list Event -> step (list Event)) (day : Z)
  (shifts : list Event) :
  0 <= day < 5 ->
  (forall s, body day s = Break s) ->
  forLoopBrk 0 5 body shifts = forLoopBrk 0 day body shifts.
Proof.
  intros Hday Hbreak. unfold forLoopBrk.
  replace (Z.to_nat (5 - 0)) with (Z.to_nat day + S (Z.to_nat (4 - day)))%nat
    by lia.
  rewrite Z.sub_0_r.
  apply (LoopFacts.iterateBrk_cut body day Hbreak). lia.
Qed.

(** C8. In both generators [totalDays] is the floor of the double product
    [years * 365.25], [end] is [start] plus [totalDays] days, and
    [weeksTotal] is the ceiling of [totalDays / 7].  The double product is
    the exact product rounded: below [2^53], [totalDays] is the floor of the
    exact product, or one more when the rounding reached that integer.
    The double quotient [totalDays / 7] has the ceiling of the exact one.
    When the date of a weekday [day] of a week is after [end], the weekday
    loop of that week stops there (it does what the loop over the earlier
    days does and pushes nothing for [day] or a later day), and the weekday
    loop of every later week pushes nothing. *)
Theorem span_and_early_exit (pa : PolicyA.Params) (pb : PolicyB.Params)
  (week day : Z) (shifts : list Event) :
  ((inject_Z (PolicyA.totalDays pa) <= times (PolicyA.years pa) 365.25)%Q /\
   (times (PolicyA.years pa) 365.25 < inject_Z (PolicyA.totalDays pa + 1))%Q /\
   ((Qabs (PolicyA.years pa * 365.25) < inject_Z (2 ^ 53))%Q ->
    Qfloor (PolicyA.years pa * 365.25) <= PolicyA.totalDays pa
      <= Qfloor (PolicyA.years pa * 365.25) + 1 /\
    (PolicyA.totalDays pa <> Qfloor (PolicyA.years pa * 365.25) ->
     (times (PolicyA.years pa) 365.25
      == inject_Z (PolicyA.totalDays pa))%Q)) /\
   PolicyA.endDate pa
   = match PolicyA.startDate pa with
     | Time t => Time (t + PolicyA.totalDays pa * msPerDay)
     | InvalidDate => InvalidDate
     end /\
   7 * (PolicyA.weeksTotal pa - 1) < PolicyA.totalDays pa
                                  <= 7 * PolicyA.weeksTotal pa /\
   (Z.abs (PolicyA.totalDays pa) < 2 ^ 52 ->
    Qceiling (divide (inject_Z (PolicyA.totalDays pa)) 7)
    = PolicyA.weeksTotal pa) /\
   let people := PolicyA.rotationOrder pa in
   let end_ := PolicyA.endDate pa in
   let weekStart w := addDays (PolicyA.startDate pa) (w * 7) in
   let body w :=
     PolicyA.weekdayBody pa end_ (weekStart w)
       (PolicyA.hospitalForWeek people w) (PolicyA.odcForWeek people w)
       (PolicyA.offForWeek people w) (PolicyA.isLaneWeek pa w) in
   (0 <= day < 5 ->
    gt (addDays (weekStart week) day) end_ = true ->
    forLoopBrk 0 5 (body week) shifts = forLoopBrk 0 day (body week) shifts
    /\ forall later s, week < later -> forLoopBrk 0 5 (body later) s = s))
  /\
  ((inject_Z (PolicyB.totalDays pb) <= times (PolicyB.years pb) 365.25)%Q /\
   (times (PolicyB.years pb) 365.25 < inject_Z (PolicyB.totalDays pb + 1))%Q /\
   ((Qabs (PolicyB.years pb * 365.25) < inject_Z (2 ^ 53))%Q ->
    Qfloor (PolicyB.years pb * 365.25) <= PolicyB.totalDays pb
      <= Qfloor (PolicyB.years pb * 365.25) + 1 /\
    (PolicyB.totalDays pb <> Qfloor (PolicyB.years pb * 365.25) ->
     (times (PolicyB.years pb) 365.25
      == inject_Z (PolicyB.totalDays pb))%Q)) /\
   PolicyB.endDate pb
   = match PolicyB.startDate pb with
     | Time t => Time (t + PolicyB.totalDays pb * msPerDay)
     | InvalidDate => InvalidDate
     end /\
   7 * (PolicyB.weeksTotal pb - 1) < PolicyB.totalDays pb
                                  <= 7 * PolicyB.weeksTotal pb /\
   (Z.abs (PolicyB.totalDays pb) < 2 ^ 52 ->
    Qceiling (divide (inject_Z (PolicyB.totalDays pb)) 7)
    = PolicyB.weeksTotal pb) /\
   let end_ := PolicyB.endDate pb in
   let weekStart w := addDays (PolicyB.startDate pb) (w * 7) in
   let body w :=
     PolicyB.weekdayBody pb end_ (weekStart w) (PolicyB.personForWeek pb w)
       w in
   (0 <= day < 5 ->
    gt (addDays (weekStart week) day) end_ = true ->
    forLoopBrk 0 5 (body week) shifts = forLoopBrk 0 day (body week) shifts
    /\ forall later s, week < later -> forLoopBrk 0 5 (body later) s = s)).
Proof.
  split.
  - split; [apply Qfloor_le|]. split; [apply Qlt_floor|].
    split; [apply floor_of_product|].
    split; [apply endDate_eq|]. split; [apply ceiling_sevenths|].
    split; [apply ceiling_sevenths_double|].
    cbv zeta. intros Hday Hout. split.
    + apply cut_at; [exact Hday|]. intros s.
      rewrite PolicyAFacts.weekdayBodyA_eq. now rewrite Hout.
    + intros later s Hlater. rewrite PolicyAFacts.weekday_loopA_eq.
      rewrite daysInRange_nil; [apply app_nil_r|].
      intros d Hd. now apply (later_weeks_out _ _ week day).
  - split; [apply Qfloor_le|]. split; [apply Qlt_floor|].
    split; [apply floor_of_product|].
    split; [apply endDate_eq|]. split; [apply ceiling_sevenths|].
    split; [apply ceiling_sevenths_double|].
    cbv zeta. intros Hday Hout. split.
    + apply cut_at; [exact Hday|]. intros s.
      rewrite PolicyBFacts.weekdayBodyB_eq. now rewrite Hout.
    + intros later s Hlater. rewrite PolicyBFacts.weekday_loopB_eq.
      rewrite daysInRange_nil; [apply app_nil_r|].
      intros d Hd. now apply (later_weeks_out _ _ week day).
Qed.

(** [sampleA] ends 7 days after its start: in week 1 the loop stops at
    Tuesday.  [sampleB] ends 10 days after its start: in week 1 the loop
    stops at Friday, and week 2 would get nothing.  With the duration of
    [dayShortOfExact] the exact product is below 1 and the double product
    is 1: the schedule spans one day. *)
Lemma span_and_early_exit_witness :
  (gt (addDays (addDays monday (1 * 7)) 1) (PolicyA.endDate sampleA) = true /\
   forLoopBrk 0 5
     (PolicyA.weekdayBody sampleA (PolicyA.endDate sampleA)
        (addDays monday (1 * 7)) (Some "B"%string) (Some "C"%string)
        (Some "A"%string) false) []
   = forLoopBrk 0 1
       (PolicyA.weekdayBody sampleA (PolicyA.endDate sampleA)
          (addDays monday (1 * 7)) (Some "B"%string) (Some "C"%string)
          (Some "A"%string) false) [])
  /\
  (gt (addDays (addDays monday (1 * 7)) 4) (PolicyB.endDate sampleB) = true /\
   forLoopBrk 0 5
     (PolicyB.weekdayBody sampleB (PolicyB.endDate sampleB)
        (addDays monday (2 * 7)) (Some "C"%string) 2) []
   = [])
  /\
  ((Qabs (PolicyB.years dayShortOfExact * 365.25) < inject_Z (2 ^ 53))%Q /\
   Qfloor (PolicyB.years dayShortOfExact * 365.25) = 0 /\
   PolicyB.totalDays dayShortOfExact = 1 /\
   (times (PolicyB.years dayShortOfExact) 365.25 == 1)%Q /\
   Qceiling (divide (inject_Z (PolicyB.totalDays dayShortOfExact)) 7) = 1).
Proof.
  split; [|split].
  - split; [reflexivity|].
    destruct (span_and_early_exit sampleA sampleB 1 1 [])
      as [(_ & _ & _ & _ & _ & _ & H) _].
    cbv zeta in H. destruct H as [H _]; [lia | reflexivity |].
    exact H.
  - split; [reflexivity|].
    destruct (span_and_early_exit sampleA sampleB 1 4 [])
      as [_ (_ & _ & _ & _ & _ & _ & H)].
    cbv zeta in H. destruct H as [_ H]; [lia | reflexivity |].
    apply (H 2 []). lia.
  - assert (Hsmall :
      (Qabs (PolicyB.years dayShortOfExact * 365.25) < inject_Z (2 ^ 53))%Q)
      by reflexivity.
    assert (Hexact : Qfloor (PolicyB.years dayShortOfExact * 365.25) = 0)
      by reflexivity.
    assert (Hdays : PolicyB.totalDays dayShortOfExact = 1) by reflexivity.
    destruct (span_and_early_exit sampleA dayShortOfExact 0 0 [])
      as [_ (_ & _ & Hfloor & _ & _ & Hweeks & _)].
    destruct (Hfloor Hsmall) as [_ Hint].
    split; [exact Hsmall|]. split; [exact Hexact|]. split; [exact Hdays|].
    split.
    + assert (Hne : PolicyB.totalDays dayShortOfExact
                    <> Qfloor (PolicyB.years dayShortOfExact * 365.25))
        by (rewrite Hdays, Hexact; discriminate).
      rewrite <- Hdays. exact (Hint Hne).
    + assert (Hlt : Z.abs (PolicyB.totalDays dayShortOfExact) < 2 ^ 52)
        by (rewrite Hdays; reflexivity).
      rewrite (Hweeks Hlt). reflexivity.
Defined.

End Span.

(* ================================================================== *)
(** * A cadence of zero                                               *)
(* ================================================================== *)

Module ZeroCadence.

Lemma rem_zero (w : Z) : strictEq (rem (Int w) (Int 0)) (Int 0) = false.
Proof. reflexivity. Qed.

(** C10. A cadence of 0 raises no error: [week % 0] is [NaN], which is not
    [=== 0].  With [lanePatternWeeks = 0] no week is a lane week and the
    weekday loop pushes the plain events only, without any lane event;
    with [laneWeekendEvery = 0] no week is a lane weekend and the weekend
    event of a week in range is titled ["Weekend person"].  The call
    returns a schedule; the only call that does not is the one the
    three-role generator rejects for a rotation order of fewer than 3
    people, whatever the cadences. *)
Theorem zero_cadence (pa : PolicyA.Params) (pb : PolicyB.Params)
  (week : Z) (shifts : list Event) :
  (let people := PolicyA.rotationOrder pa in
   let end_ := PolicyA.endDate pa in
   let weekStart := addDays (PolicyA.startDate pa) (week * 7) in
   let hospPerson := PolicyA.hospitalForWeek people week in
   let odcPerson := PolicyA.odcForWeek people week in
   let offPerson := PolicyA.offForWeek people week in
   let odcAt date who :=
     buildEvent who (atClock date (PolicyA.odcStartTime pa))
       (atClock date (PolicyA.odcEndTime pa)) in
   (PolicyA.lanePatternWeeks pa = Int 0 ->
    PolicyA.isLaneWeek pa week = false /\
    forLoopBrk 0 5
      (PolicyA.weekdayBody pa end_ weekStart hospPerson odcPerson offPerson
         (PolicyA.isLaneWeek pa week)) shifts
    = (shifts ++
       flat_map
         (fun day =>
            let date := addDays weekStart day in
            [buildEvent ("HOSPITAL " ++ show hospPerson)%string
               (atClock date (PolicyA.hospStartTime pa))
               (atClock date (PolicyA.hospEndTime pa));
             odcAt date ("ODC " ++ show odcPerson)%string]
            ++ (if PolicyA.showOff pa
                then [odcAt date ("OFF " ++ show offPerson)%string]
                else []))
         (daysInRange weekStart end_))%list) /\
   (PolicyA.laneWeekendEvery pa = Int 0 ->
    PolicyA.isLaneWeekend pa week = false /\
    PolicyA.weekendBlock pa end_ weekStart hospPerson week shifts
    = (shifts ++
       if le (addDays weekStart 5) end_
       then [buildEvent ("Weekend " ++ show hospPerson)%string
               (atClock (addDays weekStart 5) (PolicyA.weekendStartTime pa))
               (atClock (addDays weekStart 6) (PolicyA.weekendEndTime pa))]
       else [])%list) /\
   (PolicyA.generateSchedule pa
    = Return (sort byStart (PolicyA.shiftsBeforeSort pa))
    \/ (List.length people < 3)%nat))
  /\
  (let end_ := PolicyB.endDate pb in
   let weekStart := addDays (PolicyB.startDate pb) (week * 7) in
   let person := PolicyB.personForWeek pb week in
   (PolicyB.lanePatternWeeks pb = Int 0 ->
    PolicyB.isLaneWeek pb week = false /\
    forLoopBrk 0 5 (PolicyB.weekdayBody pb end_ weekStart person week) shifts
    = (shifts ++
       flat_map
         (fun day =>
            let date := addDays weekStart day in
            [buildEvent ("HOSPITAL " ++ show person)%string
               (atClock date (PolicyB.hospStartTime pb))
               (atClock date (PolicyB.hospEndTime pb));
             buildEvent ("ODC " ++ show person)%string
               (atClock date (PolicyB.odcStartTime pb))
               (atClock date (PolicyB.odcEndTime pb))])
         (daysInRange weekStart end_))%list) /\
   (PolicyB.laneWeekendEvery pb = Int 0 ->
    PolicyB.isLaneWeekend pb week = false /\
    PolicyB.weekendBlock pb end_ weekStart person week shifts
    = (shifts ++
       if le (addDays weekStart 5) end_
       then [buildEvent ("Weekend " ++ show person)%string
               (atClock (addDays weekStart 5) (PolicyB.weekendStartTime pb))
               (atClock (addDays weekStart 6) (PolicyB.weekendEndTime pb))]
       else [])%list) /\
   PolicyB.generateSchedule pb
   = Return (sort byStart (PolicyB.shiftsBeforeSort pb))).
Proof.
  split; cbv zeta.
  - split; [|split].
    + intros H.
      assert (Hlane : PolicyA.isLaneWeek pa week = false).
      { unfold PolicyA.isLaneWeek. rewrite H. apply rem_zero. }
      split; [exact Hlane|].
      rewrite PolicyAFacts.weekday_loopA_eq. f_equal.
      apply flat_map_ext. intros day.
      unfold DescribedA.dayEvents. rewrite Hlane. reflexivity.
    + intros H.
      assert (Hlane : PolicyA.isLaneWeekend pa week = false).
      { unfold PolicyA.isLaneWeekend. rewrite H. apply rem_zero. }
      split; [exact Hlane|].
      rewrite PolicyAFacts.weekendBlockA_eq.
      unfold DescribedA.weekendEvents. rewrite Hlane. reflexivity.
    + unfold PolicyA.generateSchedule.
      destruct (Nat.ltb_spec (List.length (PolicyA.rotationOrder pa)) 3);
        [now right | now left].
  - split; [|split].
    + intros H.
      assert (Hlane : PolicyB.isLaneWeek pb week = false).
      { unfold PolicyB.isLaneWeek. rewrite H. apply rem_zero. }
      split; [exact Hlane|].
      rewrite PolicyBFacts.weekday_loopB_eq. f_equal.
      apply flat_map_ext. intros day.
      unfold DescribedB.dayEvents. rewrite Hlane, andb_false_r.
      reflexivity.
    + intros H.
      assert (Hlane : PolicyB.isLaneWeekend pb week = false).
      { unfold PolicyB.isLaneWeekend. rewrite H. apply rem_zero. }
      split; [exact Hlane|].
      rewrite PolicyBFacts.weekendBlockB_eq.
      unfold DescribedB.weekendEvents. rewrite Hlane. reflexivity.
    + reflexivity.
Qed.

(** With both cadences 0, week 0 is neither a lane week nor a lane
    weekend, its weekend event is titled for the person of the week, and
    the call returns. *)
Lemma zero_cadence_witness :
  (PolicyA.isLaneWeek zeroA 0 = false /\
   PolicyA.isLaneWeekend zeroA 0 = false /\
   map title
     (PolicyA.weekendBlock zeroA (PolicyA.endDate zeroA)
        (addDays monday (0 * 7)) (Some "A"%string) 0 [])
   = ["Weekend A"%string] /\
   PolicyA.generateSchedule zeroA
   = Return (sort byStart (PolicyA.shiftsBeforeSort zeroA)))
  /\
  (PolicyB.isLaneWeek zeroB 0 = false /\
   PolicyB.isLaneWeekend zeroB 0 = false /\
   map title
     (PolicyB.weekendBlock zeroB (PolicyB.endDate zeroB)
        (addDays monday (0 * 7)) (Some "A"%string) 0 [])
   = ["Weekend A"%string]).
Proof.
  destruct (zero_cadence zeroA zeroB 0 [])
    as [(HA1 & HA2 & HA3) (HB1 & HB2 & _)].
  cbv zeta in HA1, HA2, HA3, HB1, HB2.
  destruct (HA1 eq_refl) as [HA1' _]. destruct (HA2 eq_refl) as [HA2' HA2''].
  destruct (HB1 eq_refl) as [HB1' _]. destruct (HB2 eq_refl) as [HB2' HB2''].
  split; [split; [exact HA1' | split; [exact HA2' | split]] |
          split; [exact HB1' | split; [exact HB2' |]]].
  - change (PolicyA.hospitalForWeek (PolicyA.rotationOrder zeroA) 0)
      with (Some "A"%string) in HA2''.
    change (PolicyA.startDate zeroA) with monday in HA2''.
    rewrite HA2''. reflexivity.
  - destruct HA3 as [HA3 | HA3]; [exact HA3 | simpl in HA3; lia].
  - change (PolicyB.personForWeek zeroB 0) with (Some "A"%string) in HB2''.
    change (PolicyB.startDate zeroB) with monday in HB2''.
    rewrite HB2''. reflexivity.
Defined.

End ZeroCadence.

(* ================================================================== *)
(** * The one-week scenario                                           *)
(* ================================================================== *)

Module Scenario.

(** C7, as stated, fails twice.  With [years = 0] there are 0 days and 0
    weeks, and the schedule is empty.  With 7 days and
    [laneWeekendEvery = 2] (not 1) there are 21 events, but week 0 is a
    lane weekend, as it is for every cadence other than 0: the weekend
    event is titled "Weekend Lane" and none is titled "Weekend A". *)
Lemma scenario_as_stated_fails :
  PolicyA.generateSchedule zeroYears = Return [] /\
  exists events,
    PolicyA.totalDays sampleA = 7 /\
    PolicyA.laneWeekendEvery sampleA = Int 2 /\
    PolicyA.generateSchedule sampleA = Return events /\
    List.length events = 21%nat /\
    filter (titled "Weekend A") events = [] /\
    filter (titled "Weekend Lane") events
    = [buildEvent "Weekend Lane"
         (Time (19728 * msPerDay + 6 * msPerHour))
         (Time (19729 * msPerDay + 23 * msPerHour + 59 * msPerMinute))].
Proof.
  split; [vm_compute; reflexivity|].
  eexists. repeat split; vm_compute; reflexivity.
Qed.

Lemma in_range_7 (t d : Z) :
  0 <= d <= 7 ->
  gt (addDays (addDays (Time t) (0 * 7)) d) (addDays (Time t) 7) = false.
Proof.
  intros Hd. simpl. unfold msPerDay. apply Z.ltb_ge. lia.
Qed.

Lemma saturday_in_range (t : Z) :
  le (addDays (addDays (Time t) (0 * 7)) 5) (addDays (Time t) 7) = true.
Proof. simpl. unfold msPerDay. apply Z.leb_le. lia. Qed.

Lemma first_week_day (start : Date) (d : Z) :
  addDays (addDays start (0 * 7)) d = addDays start d.
Proof. now rewrite DatesFacts.addDays_addDays. Qed.

(** C7, amended. Start date valid, a duration that gives [totalDays = 7],
    rotation order [A, B, C], three-role generator, lane every 4 weeks,
    [showOff] and [doubleOffOnLaneWeeks] set: the generator returns 21
    events, which are, for each of the 5 weekdays, HOSPITAL A, "ODC Lane",
    OFF B and OFF C (both in the ODC window), and one weekend event.  The
    weekend event is titled "Weekend Lane" for every [laneWeekendEvery]
    other than 0, and "Weekend A" when [laneWeekendEvery] is 0 or [NaN]. *)
Theorem scenario_one_week (params : PolicyA.Params) (t : Z) :
  PolicyA.startDate params = Time t ->
  PolicyA.totalDays params = 7 ->
  PolicyA.rotationOrder params = ["A"; "B"; "C"]%string ->
  PolicyA.lanePatternWeeks params = Int 4 ->
  PolicyA.showOff params = true ->
  PolicyA.doubleOffOnLaneWeeks params = true ->
  let date day := addDays (Time t) day in
  let block day :=
    [ buildEvent "HOSPITAL A"
        (atClock (date day) (PolicyA.hospStartTime params))
        (atClock (date day) (PolicyA.hospEndTime params));
      buildEvent "ODC Lane"
        (atClock (date day) (PolicyA.laneStartTime params))
        (atClock (date day) (PolicyA.laneEndTime params));
      buildEvent "OFF B"
        (atClock (date day) (PolicyA.odcStartTime params))
        (atClock (date day) (PolicyA.odcEndTime params));
      buildEvent "OFF C"
        (atClock (date day) (PolicyA.odcStartTime params))
        (atClock (date day) (PolicyA.odcEndTime params)) ] in
  let weekend :=
    buildEvent
      match PolicyA.laneWeekendEvery params with
      | Int 0 | NaN => "Weekend A"
      | Int _ => "Weekend Lane"
      end
      (atClock (date 5) (PolicyA.weekendStartTime params))
      (atClock (date 6) (PolicyA.weekendEndTime params)) in
  exists events,
    PolicyA.generateSchedule params = Return events /\
    Permutation (flat_map block weekdays ++ [weekend]) events /\
    List.length events = 21%nat.
Proof.
  intros Hstart Hdays Horder Hlane Hshow Hdouble. cbv zeta.
  exists (sort byStart (PolicyA.shiftsBeforeSort params)).
  assert (Hshifts :
    PolicyA.shiftsBeforeSort params
    = DescribedA.weekEvents params 0).
  { rewrite PolicyAFacts.shiftsBeforeSortA_eq.
    unfold PolicyA.weeksTotal. rewrite Hdays.
    change (weeks (Qceiling (inject_Z 7 / 7))) with [0].
    simpl. apply app_nil_r. }
  assert (Hweek :
    DescribedA.weekEvents params 0
    = (flat_map
         (fun day =>
            DescribedA.dayEvents params 0 (addDays (Time t) day))
         weekdays
       ++ DescribedA.weekendEvents params 0)%list).
  { unfold DescribedA.weekEvents, daysInRange, PolicyA.endDate, weekdays.
    rewrite Hstart, Hdays. cbn [filter].
    rewrite !in_range_7 by lia. cbn [negb flat_map].
    rewrite !first_week_day. reflexivity. }
  assert (Hlane0 : PolicyA.isLaneWeek params 0 = true).
  { unfold PolicyA.isLaneWeek. now rewrite Hlane. }
  assert (Hweekend :
    PolicyA.isLaneWeekend params 0
    = match PolicyA.laneWeekendEvery params with
      | Int 0 | NaN => false
      | Int _ => true
      end).
  { unfold PolicyA.isLaneWeekend.
    destruct (PolicyA.laneWeekendEvery params) as [[|k|k]|]; reflexivity. }
  assert (Hevents :
    PolicyA.shiftsBeforeSort params
    = (flat_map
         (fun day =>
            [ buildEvent "HOSPITAL A"
                (atClock (addDays (Time t) day) (PolicyA.hospStartTime params))
                (atClock (addDays (Time t) day) (PolicyA.hospEndTime params));
              buildEvent "ODC Lane"
                (atClock (addDays (Time t) day) (PolicyA.laneStartTime params))
                (atClock (addDays (Time t) day) (PolicyA.laneEndTime params));
              buildEvent "OFF B"
                (atClock (addDays (Time t) day) (PolicyA.odcStartTime params))
                (atClock (addDays (Time t) day) (PolicyA.odcEndTime params));
              buildEvent "OFF C"
                (atClock (addDays (Time t) day) (PolicyA.odcStartTime params))
                (atClock (addDays (Time t) day) (PolicyA.odcEndTime params)) ])
         weekdays
       ++ [buildEvent
             match PolicyA.laneWeekendEvery params with
             | Int 0 | NaN => "Weekend A"
             | Int _ => "Weekend Lane"
             end
             (atClock (addDays (Time t) 5) (PolicyA.weekendStartTime params))
             (atClock (addDays (Time t) 6) (PolicyA.weekendEndTime params))])%list).
  { rewrite Hshifts, Hweek. f_equal.
    - apply flat_map_ext. intros day. unfold DescribedA.dayEvents.
      rewrite Hlane0, Hshow, Hdouble, Horder. reflexivity.
    - unfold DescribedA.weekendEvents, PolicyA.endDate.
      rewrite Hstart, Hdays, saturday_in_range, Hweekend, Horder.
      rewrite !first_week_day.
      destruct (PolicyA.laneWeekendEvery params) as [[|k|k]|]; reflexivity. }
  split; [|split].
  - unfold PolicyA.generateSchedule. now rewrite Horder.
  - rewrite <- Hevents. apply SortFacts.sort_perm.
  - rewrite <- (Permutation_length (SortFacts.sort_perm _)), Hevents.
    reflexivity.
Qed.

Lemma scenario_one_week_witness :
  exists events,
    PolicyA.generateSchedule sampleA = Return events /\
    List.length events = 21%nat.
Proof.
  destruct (scenario_one_week sampleA (19723 * msPerDay))
    as (events & Hgen & _ & Hlen); try reflexivity.
  exists events. split; [exact Hgen | exact Hlen].
Defined.

End Scenario.

(* ================================================================== *)
(** * The exported document                                           *)
(* ================================================================== *)

Module Calendar.
Import ICS.

Lemma fold_eventBody (uid : nat -> string) (now : nat -> Date)
  (events : list Event) :
  forall k lines,
    fold_left (eventBody uid now) events (k, lines)
    = ((k + List.length events)%nat,
       (lines ++ flat_map (eventLines uid now) (numbered k events))%list).
Proof.
  induction events as [|e events IH]; intros k lines.
  - simpl. now rewrite Nat.add_0_r, app_nil_r.
  - cbn [fold_left eventBody]. rewrite IH. unfold push, numbered.
    cbn [List.length seq combine flat_map eventLines].
    rewrite <- !app_assoc. f_equal. lia.
Qed.

Lemma pad_two_digits (v : Z) : 0 <= v <= 99 -> pad (Int v) = fixedWidth 2 v.
Proof.
  intros Hv.
  assert (Hall :
    forallb (fun v => String.eqb (pad (Int v)) (fixedWidth 2 v))
      (zseq 0 (Z.to_nat 100)) = true) by (vm_compute; reflexivity).
  rewrite forallb_forall in Hall. apply String.eqb_eq, Hall.
  apply LoopFacts.in_zseq. lia.
Qed.

Lemma year_four_digits (v : Z) :
  1000 <= v <= 9999 -> toString (Int v) = fixedWidth 4 v.
Proof.
  intros Hv.
  assert (Hall :
    forallb (fun v => String.eqb (toString (Int v)) (fixedWidth 4 v))
      (zseq 1000 (Z.to_nat 9000)) = true) by (vm_compute; reflexivity).
  rewrite forallb_forall in Hall. apply String.eqb_eq, Hall.
  apply LoopFacts.in_zseq. lia.
Qed.

(** The month is in 1..12 and the day of the month in 1..31. *)
Lemma civil_range (dayNumber : Z) :
  let '(_, m, d) := civil dayNumber in 1 <= m <= 12 /\ 1 <= d <= 31.
Proof.
  unfold civil. cbv zeta.
  set (z := dayNumber + 719468).
  set (doe := z - z / 146097 * 146097).
  assert (Hdoe : 0 <= doe < 146097).
  { subst doe. Z.div_mod_to_equations. lia. }
  clearbody doe. clear z.
  set (yoe := (doe - doe / 1460 + doe / 36524 - doe / 146096) / 365).
  set (doy := doe - (365 * yoe + yoe / 4 - yoe / 100)).
  assert (Hdoy : 0 <= doy <= 365).
  { subst doy yoe. Z.div_mod_to_equations. lia. }
  clearbody doy. clear yoe Hdoe doe.
  set (mp := (5 * doy + 2) / 153).
  assert (Hmp : 0 <= mp <= 11).
  { subst mp. Z.div_mod_to_equations. lia. }
  assert (Hd : 1 <= doy - (153 * mp + 2) / 5 + 1 <= 31).
  { subst mp. Z.div_mod_to_equations. lia. }
  clearbody mp.
  destruct (Z.ltb_spec mp 10); lia.
Qed.

Lemma clock_range (t : Z) :
  0 <= t mod msPerDay / msPerHour <= 99 /\
  0 <= t mod msPerHour / msPerMinute <= 99.
Proof.
  unfold msPerDay, msPerHour, msPerMinute.
  pose proof (Z.mod_pos_bound t 86400000 ltac:(lia)).
  pose proof (Z.mod_pos_bound t 3600000 ltac:(lia)).
  split; split.
  - apply Z.div_pos; lia.
  - apply Z.lt_succ_r, Z.div_lt_upper_bound; lia.
  - apply Z.div_pos; lia.
  - apply Z.lt_succ_r, Z.div_lt_upper_bound; lia.
Qed.

Lemma toICSDateTime_digits (t y mo d : Z) :
  civil (t / msPerDay) = (y, mo, d) ->
  1000 <= y <= 9999 ->
  toICSDateTime (Time t)
  = (fixedWidth 4 y ++ fixedWidth 2 mo ++ fixedWidth 2 d ++ "T"
     ++ fixedWidth 2 (t mod msPerDay / msPerHour)
     ++ fixedWidth 2 (t mod msPerHour / msPerMinute) ++ "00")%string.
Proof.
  intros Hcivil Hy.
  pose proof (civil_range (t / msPerDay)) as Hrange.
  rewrite Hcivil in Hrange. destruct Hrange as [Hmo Hd].
  destruct (clock_range t) as [Hh Hmi].
  unfold toICSDateTime, getFullYear, getMonth, getDate, getHours, getMinutes.
  rewrite Hcivil. cbn [add].
  replace (mo - 1 + 1) with mo by lia.
  rewrite year_four_digits by exact Hy.
  rewrite !pad_two_digits by lia.
  reflexivity.
Qed.

(** C9. Whatever the events, the exported text is, joined by CRLF: the
    three header lines, then for each event, in the order of the input,
    the lines BEGIN:VEVENT, UID (the identifier drawn in that turn),
    DTSTAMP (the clock read in that turn), SUMMARY (the title as it is),
    DTSTART, DTEND and END:VEVENT, then END:VCALENDAR.  The three dates
    are written by [toICSDateTime]; for a date in the years 1000 to 9999
    that is the local year on 4 digits, month and day on 2 digits each,
    the letter T, hour and minute on 2 digits each, and 00. *)
Theorem exportICS_document (uid : nat -> string) (now : nat -> Date)
  (events : list Event) :
  exportICS uid now events
  = String.concat CRLF
      ([ "BEGIN:VCALENDAR"; "VERSION:2.0"; "PRODID:-//ShiftScheduler//EN" ]%string
       ++ flat_map
            (fun '(k, e) =>
               [ "BEGIN:VEVENT";
                 "UID:" ++ uid k;
                 "DTSTAMP:" ++ toICSDateTime (now k);
                 "SUMMARY:" ++ title e;
                 "DTSTART:" ++ toICSDateTime (start e);
                 "DTEND:" ++ toICSDateTime (end_ e);
                 "END:VEVENT" ]%string)
            (combine (seq 0 (List.length events)) events)
       ++ [ "END:VCALENDAR"%string ])%list
  /\ CRLF = String (ascii_of_nat 13) (String (ascii_of_nat 10) EmptyString)
  /\ forall t y mo d,
       civil (t / msPerDay) = (y, mo, d) ->
       1000 <= y <= 9999 ->
       toICSDateTime (Time t)
       = (fixedWidth 4 y ++ fixedWidth 2 mo ++ fixedWidth 2 d ++ "T"
          ++ fixedWidth 2 (t mod msPerDay / msPerHour)
          ++ fixedWidth 2 (t mod msPerHour / msPerMinute) ++ "00")%string.
Proof.
  split; [|split].
  - unfold exportICS. rewrite fold_eventBody. unfold push, numbered.
    cbn [app]. reflexivity.
  - reflexivity.
  - apply toICSDateTime_digits.
Qed.

(** 2024-01-01 at 07:05. *)
Lemma exportICS_document_witness :
  toICSDateTime (Time (19723 * msPerDay + 7 * msPerHour + 5 * msPerMinute))
  = "20240101T070500"%string.
Proof.
  destruct (exportICS_document (fun _ => EmptyString) (fun _ => monday) [])
    as (_ & _ & H).
  rewrite (H _ 2024 1 1); [reflexivity | reflexivity | lia].
Defined.

End Calendar.
